(** * cliqsprint: the monday.com / Zoho Cliq relay server

    A shallow embedding of the relay's token handling:
    - [Js]        the JavaScript values and string helpers the handlers rely on;
    - [Runtime]   the process state and the state-and-exception monad;
    - [Db]        src/server/db.js (token persistence);
    - [MondayLib] src/server/lib/monday.js (the library's own token variable);
    - [ServerJs]  src/server/server.js;
    - [Part000]   src/unnamed/part_000 (entry point with the challenge handshake);
    - [Part001]   src/unnamed/part_001 (entry point with an integer board id).
    src/unnamed/part_002 is an earlier db.js whose [saveToken] and [getToken]
    are those of src/server/db.js.

    Strings are sequences of 8-bit characters: the UTF-8 bytes of the
    JavaScript string.  Numbers are restricted to the integers, a number
    being named by its value: the handlers only ever test a number against
    zero, add to it or pass it on. *)

From Stdlib Require Import ZArith String Ascii List Bool Lia.
From stdpp Require Import base option strings gmap list.

Local Open Scope string_scope.
Local Open Scope Z_scope.

(* ===================================================================== *)
(** ** JavaScript values *)
(* ===================================================================== *)

Module Js.

(** A parsed JSON document, as [bodyParser.json()] or axios hand it over. *)
#[warnings="-register-all"]
Inductive json : Type :=
| JNull
| JBool (b : bool)
| JNum (n : Z)
| JStr (s : string)
| JArr (items : list json)
| JObj (fields : list (string * json)).

(** [ToBoolean] on a JSON value. *)
Definition truthy (v : json) : bool :=
  match v with
  | JNull => false
  | JBool b => b
  | JNum n => negb (n =? 0)
  | JStr s => negb (String.eqb s "")
  | JArr _ => true
  | JObj _ => true
  end.

(** [ToBoolean] on a string. *)
Definition str_truthy (s : string) : bool := negb (String.eqb s "").

(** [ToBoolean] on a string that may be [undefined] ([None]). *)
Definition opt_truthy (o : option string) : bool :=
  match o with
  | Some s => str_truthy s
  | None => false
  end.

(** [ToBoolean] on a number that may be [null]/[undefined]/[NaN] ([None]). *)
Definition num_truthy (o : option Z) : bool :=
  match o with
  | Some n => negb (n =? 0)
  | None => false
  end.

(** [a || b] for a string [a] and a possibly undefined string [b]. *)
Definition str_or (a : string) (b : option string) : option string :=
  if str_truthy a then Some a else b.

(** [a || b] for possibly undefined strings. *)
Definition opt_or (a b : option string) : option string :=
  if opt_truthy a then a else b.

(** [a || d] where [d] is a string literal. *)
Definition or_default (a : option string) (d : string) : string :=
  match a with
  | Some s => if str_truthy s then s else d
  | None => d
  end.

(** [x || null] for an optional string field. *)
Definition str_or_null (a : option string) : option string :=
  if opt_truthy a then a else None.

(** [x || null] for an optional numeric field. *)
Definition num_or_null (a : option Z) : option Z :=
  if num_truthy a then a else None.

(** Own-property lookup in a parsed object (one binding per key), first
    binding of the key. *)
Fixpoint assoc (k : string) (fields : list (string * json)) : option json :=
  match fields with
  | [] => None
  | (k', v) :: rest => if String.eqb k' k then Some v else assoc k rest
  end.

(** [v.challenge]: [undefined] ([None]) unless [v] is an object that has the
    property; arrays, strings, numbers and booleans carry no such property. *)
Definition challenge_of (v : json) : option json :=
  match v with
  | JObj fields => assoc "challenge" fields
  | _ => None
  end.

(** [s.startsWith(p)]. *)
Definition startsWith (p s : string) : bool := String.prefix p s.

(** [s.replace(/\/$/, '')]: drops one trailing slash. *)
Fixpoint strip_trailing_slash (s : string) : string :=
  match s with
  | EmptyString => EmptyString
  | String c rest =>
      match rest with
      | EmptyString => if Ascii.eqb c "/"%char then EmptyString else s
      | String _ _ => String c (strip_trailing_slash rest)
      end
  end.

(** *** Numbers computed from text *)

(** A JavaScript number with an integer value, [NaN] or an infinity. *)
Inductive number : Type :=
| NaN
| Infinity (negative : bool)
| Num (z : Z).

(** [ToBoolean] on a number. *)
Definition number_truthy (v : number) : bool :=
  match v with
  | NaN => false
  | Infinity _ => true
  | Num z => negb (z =? 0)
  end.

(** [-v]. *)
Definition number_neg (v : number) : number :=
  match v with
  | NaN => NaN
  | Infinity b => Infinity (negb b)
  | Num z => Num (- z)
  end.

(** A number as [JSON.stringify] writes it: [null] for [NaN] and the
    infinities. *)
Definition json_of_number (v : number) : json :=
  match v with
  | Num z => JNum z
  | _ => JNull
  end.

(** The double nearest to a non-negative integer, ties to the even
    significand; an integer that rounds to 2^1024 or more is [Infinity]. *)
Definition round_double (n : Z) : number :=
  if n <? 2 ^ 53 then Num n
  else
    let e := Z.log2 n - 52 in
    let q := n / 2 ^ e in
    let r := n mod 2 ^ e in
    let half := 2 ^ (e - 1) in
    let q' := if r <? half then q
              else if half <? r then q + 1
              else if Z.even q then q else q + 1 in
    if q' * 2 ^ e <? 2 ^ 1024 then Num (q' * 2 ^ e) else Infinity false.

(** *** [parseInt(s, 10)] *)

Definition is_space (c : ascii) : bool :=
  let n := nat_of_ascii c in
  (Nat.eqb n 32 || Nat.eqb n 9 || Nat.eqb n 10 || Nat.eqb n 11
   || Nat.eqb n 12 || Nat.eqb n 13)%bool.

(** The bytes of one white space or line terminator character that is not
    ASCII: U+00A0, U+1680, U+2000 to U+200A, U+2028, U+2029, U+202F,
    U+205F, U+3000 and U+FEFF. *)
Definition is_space2 (c1 c2 : ascii) : bool :=
  (Nat.eqb (nat_of_ascii c1) 194 && Nat.eqb (nat_of_ascii c2) 160)%bool.

Definition is_space3 (c1 c2 c3 : ascii) : bool :=
  let n1 := nat_of_ascii c1 in
  let n2 := nat_of_ascii c2 in
  let n3 := nat_of_ascii c3 in
  ((Nat.eqb n1 225 && Nat.eqb n2 154 && Nat.eqb n3 128)
   || (Nat.eqb n1 226 && Nat.eqb n2 128
       && ((Nat.leb 128 n3 && Nat.leb n3 138)
           || Nat.eqb n3 168 || Nat.eqb n3 169 || Nat.eqb n3 175))
   || (Nat.eqb n1 226 && Nat.eqb n2 129 && Nat.eqb n3 159)
   || (Nat.eqb n1 227 && Nat.eqb n2 128 && Nat.eqb n3 128)
   || (Nat.eqb n1 239 && Nat.eqb n2 187 && Nat.eqb n3 191))%bool.

Definition digit_of (c : ascii) : option Z :=
  let n := Z.of_nat (nat_of_ascii c) in
  if (48 <=? n) && (n <=? 57) then Some (n - 48) else None.

(** The string without its leading white space. *)
Fixpoint skip_spaces (s : string) : string :=
  match s with
  | String c1 rest1 =>
      if is_space c1 then skip_spaces rest1
      else
        match rest1 with
        | String c2 rest2 =>
            if is_space2 c1 c2 then skip_spaces rest2
            else
              match rest2 with
              | String c3 rest3 =>
                  if is_space3 c1 c2 c3 then skip_spaces rest3 else s
              | EmptyString => s
              end
        | EmptyString => s
        end
  | EmptyString => EmptyString
  end.

(** The longest prefix of decimal digits, read left to right; [None] when
    there is no digit at all. *)
Fixpoint digits (acc : option Z) (s : string) : option Z :=
  match s with
  | EmptyString => acc
  | String c rest =>
      match digit_of c with
      | Some d => digits (Some (10 * default 0 acc + d)) rest
      | None => acc
      end
  end.

(** The number for the digits read: [NaN] without digits, else the double
    nearest to their value. *)
Definition number_of_digits (o : option Z) : number :=
  match o with
  | Some n => round_double n
  | None => NaN
  end.

(** [parseInt(s, 10)], as Node computes it. An [undefined] argument is the
    string "undefined", which has no digits. *)
Definition parseInt (o : option string) : number :=
  match o with
  | None => NaN
  | Some s =>
      match skip_spaces s with
      | String c rest =>
          if Ascii.eqb c "-"%char
          then number_neg (number_of_digits (digits None rest))
          else if Ascii.eqb c "+"%char
          then number_of_digits (digits None rest)
          else number_of_digits (digits None (String c rest))
      | EmptyString => NaN
      end
  end.

End Js.

Import Js.

(* ===================================================================== *)
(** ** Process state, outside world and the handler monad *)
(* ===================================================================== *)

Module Runtime.

(** A [Date] object: an instant in milliseconds since the epoch, or the
    invalid date. *)
Inductive JsDate : Type :=
| InvalidDate
| At (ms : Z).

(** [new Date(t)] for an integer [t]: instants further than 8.64e15 ms from
    the epoch give the invalid date. *)
Definition new_Date (t : Z) : JsDate :=
  if (-8640000000000000 <=? t) && (t <=? 8640000000000000)
  then At t else InvalidDate.

(** A document of the [tokens] collection, with the fields [saveToken]
    writes, as [saveToken] hands them to the driver; [None] is [null].
    [updated_at] is the reading of the clock in milliseconds. *)
Record TokenDoc : Type := mkDoc {
  service : string;
  access_token : string;
  refresh_token : option string;
  expires_at : option JsDate;
  updated_at : Z
}.

(** The body of the provider's answer to the token request ([resp.data]). *)
Record TokenData : Type := mkTokenData {
  td_access_token : option string;
  td_refresh_token : option string;
  td_expires_in : option Z
}.

(** An outbound HTTP call to the provider; the variables of a GraphQL
    call as they are written into the request body. *)
Inductive NetCall : Type :=
| TokenPost (code client_id client_secret redirect_uri grant_type : string)
| GraphQLPost (url query : string) (variables : option json)
              (authorization : string).

(** What a handler writes to [res]. *)
Inductive Payload : Type :=
| Text (s : string)
| Json (v : json)
| Redirect (location : string).

Record Response : Type := mkResp { status : Z; payload : Payload }.

(** The parts of an inbound request the handlers read. Query parameters
    are a string or missing. *)
Record Request : Type := mkReq {
  q_code : option string;            (* req.query.code *)
  q_board : option string;           (* req.query.board *)
  x_forwarded_proto : option string; (* req.headers['x-forwarded-proto'] *)
  protocol : string;                 (* req.protocol *)
  host : string;                     (* req.get('host') *)
  body : option json                 (* req.body, None when undefined *)
}.

(** Mutable state of the process and of the database it talks to. *)
Record World : Type := mkWorld {
  mondayAccessToken : string;        (* server: let mondayAccessToken *)
  oauthToken : string;               (* lib/monday.js: let oauthToken *)
  env : gmap string string;          (* process.env *)
  db : bool;                         (* db.js: db is a live handle *)
  tokens : list TokenDoc;            (* the 'tokens' collection *)
  sent : list NetCall;               (* provider calls made, newest first *)
  listening : bool;                  (* app.listen returned *)
  exit_code : option Z;              (* process.exit(n) was reached *)
  service_index : bool               (* the collection has the unique index
                                        on service *)
}.

(** Outcomes the environment decides while one handler runs. *)
Record Ext : Type := mkExt {
  token_endpoint : option (option TokenData); (* None: axios.post rejects;
                                                 Some d: resolves, resp.data = d *)
  graphql_endpoint : option json;    (* None: axios.post rejects *)
  db_connect_ok : bool;              (* client.connect / createIndex resolve *)
  db_write_ok : bool;                (* updateOne resolves *)
  db_read_ok : bool;                 (* findOne resolves *)
  date_now : Z;                      (* Date.now() in saveToken *)
  date_new : Z;                      (* new Date() in saveToken *)
  listen_ok : bool                   (* app.listen returns; it throws for a
                                        port outside 0..65535 *)
}.

(** A computation either returns or throws. *)
Inductive Res (A : Type) : Type :=
| Ok (a : A)
| Throw (msg : string).
Arguments Ok {A} a.
Arguments Throw {A} msg.

Definition M (A : Type) : Type := World -> Res A * World.

Definition ret {A} (a : A) : M A := fun w => (Ok a, w).

Definition bind {A B} (m : M A) (k : A -> M B) : M B :=
  fun w =>
    match m w with
    | (Ok a, w') => k a w'
    | (Throw e, w') => (Throw e, w')
    end.

Definition throw {A} (e : string) : M A := fun w => (Throw e, w).

(** [try { m } catch (e) { h e }]. *)
Definition try_catch {A} (m : M A) (h : string -> M A) : M A :=
  fun w =>
    match m w with
    | (Ok a, w') => (Ok a, w')
    | (Throw e, w') => h e w'
    end.

Definition get : M World := fun w => (Ok w, w).

Definition modify (f : World -> World) : M unit := fun w => (Ok tt, f w).

Definition set_mondayAccessToken (t : string) (w : World) : World :=
  mkWorld t (oauthToken w) (env w) (db w) (tokens w) (sent w)
          (listening w) (exit_code w) (service_index w).

Definition set_oauthToken (t : string) (w : World) : World :=
  mkWorld (mondayAccessToken w) t (env w) (db w) (tokens w) (sent w)
          (listening w) (exit_code w) (service_index w).

Definition set_env (e : gmap string string) (w : World) : World :=
  mkWorld (mondayAccessToken w) (oauthToken w) e (db w) (tokens w) (sent w)
          (listening w) (exit_code w) (service_index w).

Definition set_db (b : bool) (w : World) : World :=
  mkWorld (mondayAccessToken w) (oauthToken w) (env w) b (tokens w) (sent w)
          (listening w) (exit_code w) (service_index w).

Definition set_tokens (c : list TokenDoc) (w : World) : World :=
  mkWorld (mondayAccessToken w) (oauthToken w) (env w) (db w) c (sent w)
          (listening w) (exit_code w) (service_index w).

Definition push_sent (c : NetCall) (w : World) : World :=
  mkWorld (mondayAccessToken w) (oauthToken w) (env w) (db w) (tokens w)
          (c :: sent w) (listening w) (exit_code w) (service_index w).

Definition set_listening (w : World) : World :=
  mkWorld (mondayAccessToken w) (oauthToken w) (env w) (db w) (tokens w)
          (sent w) true (exit_code w) (service_index w).

Definition set_exit (n : Z) (w : World) : World :=
  mkWorld (mondayAccessToken w) (oauthToken w) (env w) (db w) (tokens w)
          (sent w) (listening w) (Some n) (service_index w).

Definition set_service_index (b : bool) (w : World) : World :=
  mkWorld (mondayAccessToken w) (oauthToken w) (env w) (db w) (tokens w)
          (sent w) (listening w) (exit_code w) b.

(** [app.listen(PORT, ...)]. *)
Definition listen (x : Ext) : M unit :=
  if listen_ok x then modify set_listening
  else throw "RangeError: options.port should be >= 0 and < 65536".

(** [process.env.K = v]. *)
Definition setenv (k v : string) : M unit :=
  modify (fun w => set_env (<[k := v]> (env w)) w).

(** [process.env.K]. *)
Definition getenv (k : string) : M (option string) :=
  fun w => (Ok (env w !! k), w).

End Runtime.

Import Runtime.

Declare Scope js_scope.
Delimit Scope js_scope with js.
Notation "'let*' x ':=' m 'in' k" := (bind m (fun x => k))
  (at level 10, x name, m at level 100, k at level 200) : js_scope.
Notation "m ';;' k" := (bind m (fun _ => k))
  (at level 100, k at level 200, right associativity) : js_scope.
Local Open Scope js_scope.

(* ===================================================================== *)
(** ** src/server/db.js *)
(* ===================================================================== *)

Module Db.

(** [collection.findOne({ service })]: the first document of the service. *)
Definition findOne (svc : string) (c : list TokenDoc) : option TokenDoc :=
  List.find (fun d => String.eqb (service d) svc) c.

(** [collection.updateOne({ service }, { $set: doc }, { upsert: true })]:
    the first document of the service takes the fields of [doc]; without
    such a document one is inserted. *)
Fixpoint updateOne (svc : string) (doc : TokenDoc) (c : list TokenDoc)
  : list TokenDoc :=
  match c with
  | [] => [doc]
  | d :: rest =>
      if String.eqb (service d) svc then doc :: rest
      else d :: updateOne svc doc rest
  end.

(** [connectDB()]; the result tells whether a handle is returned. A first
    successful connection ends with [createIndex({ service: 1 }, { unique:
    true })]; a rejected [connect] or [createIndex] leaves no handle. *)
Definition connectDB (x : Ext) : M bool :=
  let* w := get in
  if db w then ret true
  else if negb (opt_truthy (env w !! "MONGODB_URI")) then ret false
  else if db_connect_ok x
  then modify (fun w => set_service_index true (set_db true w)) ;; ret true
  else modify (set_db false) ;; throw "MongoDB connect error".

(** [saveToken(service, access_token, refresh_token, expires_in)]. *)
Definition saveToken (x : Ext) (svc token : string)
    (refresh : option string) (expires_in : option Z) : M (option TokenDoc) :=
  let* w := get in
  if negb (db w) then ret None
  else
    let doc :=
      {| service := svc;
         access_token := token;
         refresh_token := refresh;
         expires_at :=
           (if num_truthy expires_in
            then Some (new_Date (date_now x + default 0 expires_in * 1000))
            else None);
         updated_at := date_new x |} in
    if db_write_ok x
    then modify (fun w => set_tokens (updateOne svc doc (tokens w)) w) ;;
         ret (Some doc)
    else throw "updateOne rejected".

(** [getToken(service)]; [None] is [null]. *)
Definition getToken (x : Ext) (svc : string) : M (option string) :=
  let* w := get in
  if negb (db w) then ret None
  else if db_read_ok x
  then ret (str_or_null (access_token <$> findOne svc (tokens w)))
  else throw "findOne rejected".

End Db.

(* ===================================================================== *)
(** ** src/server/lib/monday.js *)
(* ===================================================================== *)

Module MondayLib.

Definition MONDAY_URL : string := "https://api.monday.com/v2".

(** [setToken(token)]. *)
Definition setToken (token : string) : M unit :=
  modify (set_oauthToken token).

End MondayLib.

(* ===================================================================== *)
(** ** What the three entry points share verbatim *)
(* ===================================================================== *)

Module Common.

Definition nl : string := String "010"%char EmptyString.
Definition dq : string := String "034"%char EmptyString.

(** The module constants are read from [process.env] when the file is
    loaded; no handler writes the settings they come from. *)
Definition PORT (e : gmap string string) : string :=
  or_default (e !! "PORT") "3000".
Definition CLIENT_ID (e : gmap string string) : string :=
  or_default (e !! "MONDAY_CLIENT_ID") "".
Definition CLIENT_SECRET (e : gmap string string) : string :=
  or_default (e !! "MONDAY_CLIENT_SECRET") "".
Definition REDIRECT_URL (e : gmap string string) : string :=
  or_default (e !! "MONDAY_REDIRECT_URL")
    ("http://localhost:" ++ PORT e ++ "/monday/oauth/callback").

(** [getPublicUrl(req)]. *)
Definition getPublicUrl (req : Request) : M string :=
  let* w := get in
  let publicEnv :=
    opt_or (opt_or (env w !! "MONDAY_PUBLIC_URL") (env w !! "PUBLIC_URL"))
           (env w !! "NGROK_URL") in
  if opt_truthy publicEnv && startsWith "http" (default "" publicEnv)
  then ret (strip_trailing_slash (default "" publicEnv))
  else
    let proto := or_default (x_forwarded_proto req) (protocol req) in
    ret (proto ++ "://" ++ host req).

(** [axios.post('https://auth.monday.com/oauth2/token', {...})]; the
    result is [resp.data]. *)
Definition post_token (x : Ext) (code : string) : M (option TokenData) :=
  let* w := get in
  modify (push_sent (TokenPost code (CLIENT_ID (env w)) (CLIENT_SECRET (env w))
                               (REDIRECT_URL (env w)) "authorization_code")) ;;
  match token_endpoint x with
  | Some data => ret data
  | None => throw "token request failed"
  end.

(** [axios.post('https://api.monday.com/v2', { query, variables },
    { headers: { Authorization: token, ... } })]; the result is
    [resp.data]. *)
Definition post_graphql (x : Ext) (query : string) (variables : option json)
    (token : string) : M json :=
  modify (push_sent (GraphQLPost "https://api.monday.com/v2" query variables
                                 token)) ;;
  match graphql_endpoint x with
  | Some data => ret data
  | None => throw "graphql request failed"
  end.

(** [mondayAccessToken || process.env.MONDAY_ACCESS_TOKEN]: the cached
    token, [None] when the expression is [undefined]. *)
Definition currentToken : M (option string) :=
  let* w := get in
  ret (str_or (mondayAccessToken w) (env w !! "MONDAY_ACCESS_TOKEN")).

End Common.

Import Common.

(* ===================================================================== *)
(** ** src/server/server.js *)
(* ===================================================================== *)

Module ServerJs.

(** State once the module is loaded: [mondayAccessToken] and the library's
    [oauthToken] start from [process.env.MONDAY_ACCESS_TOKEN || '']. *)
Definition boot (e : gmap string string) (stored : list TokenDoc) : World :=
  {| mondayAccessToken := or_default (e !! "MONDAY_ACCESS_TOKEN") "";
     oauthToken := or_default (e !! "MONDAY_ACCESS_TOKEN") "";
     env := e; db := false; tokens := stored; sent := [];
     listening := false; exit_code := None; service_index := false |}.

(** The page sent when the exchange succeeds. *)
Definition oauth_done : Response :=
  mkResp 200 (Text "OAuth complete. Server has the monday access token. You can now call /monday/create-webhook?board=<BOARD_ID>").

(** The answer to a registration request made without any token. *)
Definition not_authorized : Response :=
  mkResp 400 (Text "No monday OAuth token available. Please run /monday/oauth first.").

(** [GET /monday/oauth/callback]. *)
Definition oauth_callback (x : Ext) (req : Request) : M Response :=
  if negb (opt_truthy (q_code req))
  then ret (mkResp 400 (Text "No code query parameter present."))
  else
    try_catch
      (let* data := post_token x (default "" (q_code req)) in
       match data with
       | Some d =>
           if opt_truthy (td_access_token d) then
             let access := default "" (td_access_token d) in
             modify (set_mondayAccessToken access) ;;
             try_catch (MondayLib.setToken access) (fun _ => ret tt) ;;
             setenv "MONDAY_ACCESS_TOKEN" access ;;
             try_catch
               (Db.saveToken x "monday" access
                  (str_or_null (td_refresh_token d))
                  (num_or_null (td_expires_in d)) ;;
                ret tt)
               (fun _ => ret tt) ;;
             ret oauth_done
           else
             ret (mkResp 500 (Text "Token exchange did not return access_token. Check server logs."))
       | None =>
           ret (mkResp 500 (Text "Token exchange did not return access_token. Check server logs."))
       end)
      (fun _ => ret (mkResp 500 (Text "OAuth token exchange failed. See server logs."))).

(** Lines 104-115 of [GET /monday/create-webhook]: in-memory, then
    environment, then database. *)
Definition resolveToken (x : Ext) : M (option string) :=
  let* token := currentToken in
  if negb (opt_truthy token) then
    try_catch
      (let* t := Db.getToken x "monday" in
       if opt_truthy t then
         modify (set_mondayAccessToken (default "" t)) ;;
         try_catch (MondayLib.setToken (default "" t)) (fun _ => ret tt) ;;
         ret t
       else ret t)
      (fun _ => ret token)
  else ret token.

(** The mutation text, built by a template literal around the board id and
    the callback address. *)
Definition mutation (boardId webhookUrl : string) : string :=
  nl ++
  "    mutation {" ++ nl ++
  "      create_webhook (" ++ nl ++
  "        board_id: " ++ boardId ++ "," ++ nl ++
  "        url: " ++ dq ++ webhookUrl ++ dq ++ "," ++ nl ++
  "        event: change_column_value" ++ nl ++
  "      ) {" ++ nl ++
  "        id" ++ nl ++
  "      }" ++ nl ++
  "    }" ++ nl ++
  "  ".

(** [GET /monday/create-webhook]. *)
Definition create_webhook (x : Ext) (req : Request) : M Response :=
  if negb (opt_truthy (q_board req))
  then ret (mkResp 400 (Text "Missing ?board=<BOARD_ID> query param."))
  else
    let boardId := default "" (q_board req) in
    let* token := resolveToken x in
    if negb (opt_truthy token)
    then ret not_authorized
    else
      let* publicUrl := getPublicUrl req in
      let webhookUrl := strip_trailing_slash publicUrl ++ "/webhook/monday" in
      try_catch
        (let* data :=
           post_graphql x (mutation boardId webhookUrl) None
                        (default "" token) in
         ret (mkResp 200 (Json data)))
        (fun _ => ret (mkResp 500 (Text "Failed to create webhook. See server logs."))).

(** [POST /webhook/monday]. *)
Definition webhook_monday (req : Request) : M Response :=
  ret (mkResp 200 (Text "ok")).

(** [start()]. *)
Definition start (x : Ext) : M unit :=
  try_catch
    (Db.connectDB x ;; listen x)
    (fun _ => modify (set_exit 1)).

End ServerJs.

(* ===================================================================== *)
(** ** src/unnamed/part_000 *)
(* ===================================================================== *)

Module Part000.

(** State once the module is loaded: [mondayAccessToken] starts empty, the
    library's [oauthToken] from the environment. *)
Definition boot (e : gmap string string) (stored : list TokenDoc) : World :=
  {| mondayAccessToken := "";
     oauthToken := or_default (e !! "MONDAY_ACCESS_TOKEN") "";
     env := e; db := false; tokens := stored; sent := [];
     listening := false; exit_code := None; service_index := false |}.

(** [GET /monday/oauth/callback]. *)
Definition oauth_callback (x : Ext) (req : Request) : M Response :=
  if negb (opt_truthy (q_code req))
  then ret (mkResp 400 (Text "No ?code provided."))
  else
    try_catch
      (let* data := post_token x (default "" (q_code req)) in
       let access := data ≫= td_access_token in
       if negb (opt_truthy access)
       then ret (mkResp 500 (Text "OAuth exchange failed."))
       else
         modify (set_mondayAccessToken (default "" access)) ;;
         MondayLib.setToken (default "" access) ;;
         setenv "MONDAY_ACCESS_TOKEN" (default "" access) ;;
         try_catch
           (Db.saveToken x "monday" (default "" access)
              (str_or_null (data ≫= td_refresh_token))
              (num_or_null (data ≫= td_expires_in)) ;;
            ret tt)
           (fun _ => ret tt) ;;
         ret (mkResp 200 (Text "OAuth complete. Now run /monday/create-webhook?board=<BOARD_ID>")))
      (fun _ => ret (mkResp 500 (Text "OAuth failed."))).

(** Lines 104-116 of [GET /monday/create-webhook]. *)
Definition resolveToken (x : Ext) : M (option string) :=
  let* token := currentToken in
  if negb (opt_truthy token) then
    try_catch
      (let* t := Db.getToken x "monday" in
       if opt_truthy t then
         modify (set_mondayAccessToken (default "" t)) ;;
         MondayLib.setToken (default "" t) ;;
         setenv "MONDAY_ACCESS_TOKEN" (default "" t) ;;
         ret t
       else ret t)
      (fun _ => ret token)
  else ret token.

(** The mutation text: a constant, the inputs travel as variables. *)
Definition mutation : string :=
  nl ++
  "    mutation CreateWebhook($boardId: ID!, $url: String!) {" ++ nl ++
  "      create_webhook(board_id: $boardId, url: $url, event: change_column_value) {" ++ nl ++
  "        id" ++ nl ++
  "      }" ++ nl ++
  "    }" ++ nl ++
  "  ".

(** [GET /monday/create-webhook]. *)
Definition create_webhook (x : Ext) (req : Request) : M Response :=
  if negb (opt_truthy (q_board req))
  then ret (mkResp 400 (Text "Missing ?board=<BOARD_ID>"))
  else
    let boardId := default "" (q_board req) in
    let* token := resolveToken x in
    if negb (opt_truthy token)
    then ret (mkResp 400 (Text "No monday token. Run /monday/oauth."))
    else
      let* publicUrl := getPublicUrl req in
      let webhookUrl := publicUrl ++ "/webhook/monday" in
      try_catch
        (let* data :=
           post_graphql x mutation
             (Some (JObj [("boardId", JStr boardId); ("url", JStr webhookUrl)]))
             (default "" token) in
         ret (mkResp 200 (Json data)))
        (fun _ => ret (mkResp 500 (Text "Webhook creation failed. See logs."))).

(** [POST /webhook/monday]. *)
Definition webhook_monday (req : Request) : M Response :=
  let ok := ret (mkResp 200 (Text "ok")) in
  match body req with
  | Some b =>
      if truthy b then
        match challenge_of b with
        | Some c =>
            if truthy c
            then ret (mkResp 200 (Json (JObj [("challenge", c)])))
            else ok
        | None => ok
        end
      else ok
  | None => ok
  end.

(** [start()]. *)
Definition start (x : Ext) : M unit :=
  try_catch
    (Db.connectDB x ;;
     let* saved := Db.getToken x "monday" in
     (if opt_truthy saved then
        modify (set_mondayAccessToken (default "" saved)) ;;
        MondayLib.setToken (default "" saved) ;;
        setenv "MONDAY_ACCESS_TOKEN" (default "" saved)
      else ret tt) ;;
     listen x)
    (fun _ => modify (set_exit 1)).

End Part000.

(* ===================================================================== *)
(** ** src/unnamed/part_001 *)
(* ===================================================================== *)

Module Part001.

(** State once the module is loaded. *)
Definition boot (e : gmap string string) (stored : list TokenDoc) : World :=
  {| mondayAccessToken := "";
     oauthToken := or_default (e !! "MONDAY_ACCESS_TOKEN") "";
     env := e; db := false; tokens := stored; sent := [];
     listening := false; exit_code := None; service_index := false |}.

(** [GET /monday/oauth/callback]. *)
Definition oauth_callback (x : Ext) (req : Request) : M Response :=
  if negb (opt_truthy (q_code req))
  then ret (mkResp 400 (Text "No 'code' received."))
  else
    try_catch
      (let* data := post_token x (default "" (q_code req)) in
       let access := data ≫= td_access_token in
       if negb (opt_truthy access)
       then ret (mkResp 500 (Text "Token exchange failed."))
       else
         modify (set_mondayAccessToken (default "" access)) ;;
         MondayLib.setToken (default "" access) ;;
         setenv "MONDAY_ACCESS_TOKEN" (default "" access) ;;
         try_catch
           (Db.saveToken x "monday" (default "" access)
              (str_or_null (data ≫= td_refresh_token))
              (num_or_null (data ≫= td_expires_in)) ;;
            ret tt)
           (fun _ => ret tt) ;;
         ret (mkResp 200 (Text "OAuth complete. You can now call /monday/create-webhook?board=<BOARD_ID>")))
      (fun _ => ret (mkResp 500 (Text "OAuth exchange failed."))).

(** Lines 100-112 of [GET /monday/create-webhook]. *)
Definition resolveToken (x : Ext) : M (option string) :=
  let* token := currentToken in
  if negb (opt_truthy token) then
    try_catch
      (let* t := Db.getToken x "monday" in
       if opt_truthy t then
         modify (set_mondayAccessToken (default "" t)) ;;
         MondayLib.setToken (default "" t) ;;
         setenv "MONDAY_ACCESS_TOKEN" (default "" t) ;;
         ret t
       else ret t)
      (fun _ => ret token)
  else ret token.

(** The query text: a constant, the inputs travel as variables. *)
Definition query : string :=
  nl ++
  "    mutation CreateWebhook($boardId: Int!, $url: String!) {" ++ nl ++
  "      create_webhook(board_id: $boardId, url: $url, event: change_column_value) {" ++ nl ++
  "        id" ++ nl ++
  "      }" ++ nl ++
  "    }" ++ nl ++
  "  ".

(** [GET /monday/create-webhook]. *)
Definition create_webhook (x : Ext) (req : Request) : M Response :=
  let boardId := parseInt (q_board req) in
  if negb (number_truthy boardId)
  then ret (mkResp 400 (Text "Missing or invalid board ID."))
  else
    let* token := resolveToken x in
    if negb (opt_truthy token)
    then ret (mkResp 400 (Text "No monday token available. Run /monday/oauth first."))
    else
      let* publicUrl := getPublicUrl req in
      let webhookUrl := publicUrl ++ "/webhook/monday" in
      try_catch
        (let* data :=
           post_graphql x query
             (Some (JObj [("boardId", json_of_number boardId);
                          ("url", JStr webhookUrl)]))
             (default "" token) in
         ret (mkResp 200 (Json data)))
        (fun _ => ret (mkResp 500 (Text "Webhook creation failed. Check Render logs."))).

(** [POST /webhook/monday]. *)
Definition webhook_monday (req : Request) : M Response :=
  ret (mkResp 200 (Text "ok")).

(** [start()]. *)
Definition start (x : Ext) : M unit :=
  try_catch
    (Db.connectDB x ;;
     let* saved := Db.getToken x "monday" in
     (if opt_truthy saved then
        modify (set_mondayAccessToken (default "" saved)) ;;
        MondayLib.setToken (default "" saved) ;;
        setenv "MONDAY_ACCESS_TOKEN" (default "" saved)
      else ret tt) ;;
     listen x)
    (fun _ => modify (set_exit 1)).

End Part001.

(** The query texts of the GraphQL calls in a trace. *)
Definition queries (cs : list NetCall) : list string :=
  flat_map (fun c => match c with
                     | GraphQLPost _ q _ _ => [q]
                     | TokenPost _ _ _ _ _ => []
                     end) cs.

(** A string token counts as absent when the expression yields a falsy
    value: [undefined], [null] or the empty string. *)
Definition absent (t : option string) : Prop := opt_truthy t = false.

(** The HTTP status a handler answered with, if it answered. *)
Definition status_of (r : Res Response) : option Z :=
  match r with
  | Ok resp => Some (status resp)
  | Throw _ => None
  end.

(* ===================================================================== *)
(** ** The consent redirect: [GET /monday/oauth] *)
(* ===================================================================== *)

Module OAuthStart.

(** Characters [encodeURIComponent] leaves alone: letters, digits and
    [- _ . ! ~ * ' ( )]. *)
Definition unreserved (c : ascii) : bool :=
  let n := nat_of_ascii c in
  ((Nat.leb 65 n && Nat.leb n 90) || (Nat.leb 97 n && Nat.leb n 122)
   || (Nat.leb 48 n && Nat.leb n 57)
   || Nat.eqb n 45 || Nat.eqb n 95 || Nat.eqb n 46 || Nat.eqb n 33
   || Nat.eqb n 126 || Nat.eqb n 42 || Nat.eqb n 39 || Nat.eqb n 40
   || Nat.eqb n 41)%bool.

(** The upper-case hexadecimal digit of a value below 16. *)
Definition hex_digit (n : nat) : ascii :=
  if Nat.ltb n 10 then ascii_of_nat (48 + n) else ascii_of_nat (55 + n).

(** [encodeURIComponent(s)], the string read as its UTF-8 bytes: every
    byte that is not unreserved becomes [%XX]. *)
Fixpoint encodeURIComponent (s : string) : string :=
  match s with
  | EmptyString => EmptyString
  | String c rest =>
      if unreserved c then String c (encodeURIComponent rest)
      else
        String "%"%char
          (String (hex_digit (Nat.div (nat_of_ascii c) 16))
             (String (hex_digit (Nat.modulo (nat_of_ascii c) 16))
                (encodeURIComponent rest)))
  end.

(** The address of the provider's consent page. *)
Definition authUrl (e : gmap string string) : string :=
  "https://auth.monday.com/oauth2/authorize?client_id=" ++ CLIENT_ID e
  ++ "&redirect_uri=" ++ encodeURIComponent (REDIRECT_URL e).

(** [GET /monday/oauth] of src/server/server.js. *)
Definition oauth_start (req : Request) : M Response :=
  let* w := get in
  if negb (str_truthy (CLIENT_ID (env w)))
  then ret (mkResp 200 (Text "MONDAY_CLIENT_ID is not configured in .env. Add it and restart the server."))
  else ret (mkResp 302 (Redirect (authUrl (env w)))).

(** [GET /monday/oauth] of part_000. *)
Definition oauth_start_000 (req : Request) : M Response :=
  let* w := get in
  if negb (str_truthy (CLIENT_ID (env w)))
  then ret (mkResp 200 (Text "MONDAY_CLIENT_ID missing."))
  else ret (mkResp 302 (Redirect (authUrl (env w)))).

(** [GET /monday/oauth] of part_001. *)
Definition oauth_start_001 (req : Request) : M Response :=
  let* w := get in
  if negb (str_truthy (CLIENT_ID (env w)))
  then ret (mkResp 200 (Text "MONDAY_CLIENT_ID missing in .env or Render env."))
  else ret (mkResp 302 (Redirect (authUrl (env w)))).

(** Every character of a string satisfies a test. *)
Fixpoint all_chars (p : ascii -> bool) (s : string) : bool :=
  match s with
  | EmptyString => true
  | String c rest => p c && all_chars p rest
  end.

(** Characters an encoded component is made of: the unreserved ones (the
    hexadecimal digits are among them) and the percent sign. *)
Definition component_char (c : ascii) : bool :=
  let n := nat_of_ascii c in
  (unreserved c || Nat.eqb n 37)%bool.

End OAuthStart.

(* ===================================================================== *)
(** ** src/server/lib/monday.js: queries *)
(* ===================================================================== *)

Module MondayApi.

(** [v.k] for a value that is neither [null] nor [undefined] and a name
    [k] that is neither [length] nor an index: [None] is [undefined]. *)
Definition member (k : string) (v : json) : option json :=
  match v with
  | JObj fields => assoc k fields
  | _ => None
  end.

(** [ToBoolean] on a value that may be [undefined]. *)
Definition opt_json_truthy (o : option json) : bool :=
  match o with
  | Some v => truthy v
  | None => false
  end.

(** A value is [null] or [undefined]: where [?.] stops. *)
Definition nullish (o : option json) : bool :=
  match o with
  | Some JNull => true
  | Some _ => false
  | None => true
  end.

(** [runQuery(query, variables)]. The message of the error thrown for a
    response with [errors] is cut before the serialized errors. *)
Definition runQuery (x : Ext) (query : string) (variables : json) : M json :=
  let* w := get in
  if negb (str_truthy (oauthToken w))
  then throw "Missing monday OAuth token. Call setToken(token) first."
  else
    modify (push_sent (GraphQLPost MondayLib.MONDAY_URL query (Some variables)
                                   (oauthToken w))) ;;
    match graphql_endpoint x with
    | None => throw "fetch failed"
    | Some JNull => throw "TypeError: cannot read properties of null"
    | Some j =>
        if opt_json_truthy (member "errors" j)
        then throw "Monday API error: "
        else ret j
    end.

(** *** [parseInt(s)] without a radix *)

Definition hex_value (c : ascii) : option Z :=
  let n := Z.of_nat (nat_of_ascii c) in
  if (48 <=? n) && (n <=? 57) then Some (n - 48)
  else if (97 <=? n) && (n <=? 102) then Some (n - 87)
  else if (65 <=? n) && (n <=? 70) then Some (n - 55)
  else None.

Fixpoint hex_digits (acc : option Z) (s : string) : option Z :=
  match s with
  | EmptyString => acc
  | String c rest =>
      match hex_value c with
      | Some d => hex_digits (Some (16 * default 0 acc + d)) rest
      | None => acc
      end
  end.

(** The digits after the sign: hexadecimal after [0x] or [0X], decimal
    otherwise. *)
Definition unsigned_auto (s : string) : number :=
  match s with
  | String c0 (String c1 rest) =>
      if Ascii.eqb c0 "0"%char
         && (Ascii.eqb c1 "x"%char || Ascii.eqb c1 "X"%char)
      then number_of_digits (hex_digits None rest)
      else number_of_digits (digits None s)
  | _ => number_of_digits (digits None s)
  end.

(** [parseInt(s)], as Node computes it. *)
Definition parseIntAuto (s : string) : number :=
  match skip_spaces s with
  | String c rest =>
      if Ascii.eqb c "-"%char then number_neg (unsigned_auto rest)
      else if Ascii.eqb c "+"%char then unsigned_auto rest
      else unsigned_auto (String c rest)
  | EmptyString => NaN
  end.

(** The query text of [fetchItem]. *)
Definition item_query : string :=
  "query ($itemId: [Int]) {" ++ nl ++
  "    items (ids: $itemId) {" ++ nl ++
  "      id name column_values { id text }" ++ nl ++
  "      board { id name }" ++ nl ++
  "      url" ++ nl ++
  "    }" ++ nl ++
  "  }".

(** [items?.[0]] for a present [items]: the first element of an array, the
    first character of a string, the property [0] of an object. *)
Definition first_of (items : json) : option json :=
  match items with
  | JArr (v :: _) => Some v
  | JStr (String c _) => Some (JStr (String c EmptyString))
  | JObj fields => assoc "0" fields
  | _ => None
  end.

(** [res.data?.items?.[0] || {}]. *)
Definition first_item (res : json) : json :=
  let data := member "data" res in
  let items := if nullish data then None
               else member "items" (default JNull data) in
  let first := if nullish items then None
               else first_of (default JNull items) in
  if opt_json_truthy first then default JNull first else JObj [].

(** [cols.find(c => c.id === 'status')] on an array; reading [id] of a
    [null] element throws. *)
Fixpoint find_status (cols : list json) : Res (option json) :=
  match cols with
  | [] => Ok None
  | JNull :: _ => Throw "TypeError: cannot read properties of null"
  | c :: rest =>
      match member "id" c with
      | Some (JStr s) => if String.eqb s "status" then Ok (Some c)
                         else find_status rest
      | _ => find_status rest
      end
  end.

(** [item.column_values?.find(c => c.id === 'status') || {}]; a present
    [column_values] that is no array has no [find] to call. *)
Definition status_column (item : json) : Res json :=
  let cols := member "column_values" item in
  if nullish cols then Ok (JObj [])
  else
    match cols with
    | Some (JArr l) =>
        match find_status l with
        | Ok found => Ok (if opt_json_truthy found then default JNull found
                          else JObj [])
        | Throw e => Throw e
        end
    | _ => Throw "TypeError: find is not a function"
    end.

(** What [fetchItem] returns; [None] is [undefined]. *)
Record Item : Type := mkItem {
  item_id : option json;
  item_name : option json;
  status_text : json;
  item_url : option json;
  raw : json
}.

(** [fetchItem(itemId)], the item id given as a string. *)
Definition fetchItem (x : Ext) (itemId : string) : M Item :=
  let* res :=
    runQuery x item_query
      (JObj [("itemId", json_of_number (parseIntAuto itemId))]) in
  let item := first_item res in
  match status_column item with
  | Throw e => throw e
  | Ok statusCol =>
      ret {| item_id := member "id" item;
             item_name := member "name" item;
             status_text :=
               (if opt_json_truthy (member "text" statusCol)
                then default JNull (member "text" statusCol)
                else JStr "Unknown");
             item_url := member "url" item;
             raw := item |}
  end.

(** [assignItem(itemId, mondayUserId)]. *)
Definition assignItem (itemId mondayUserId : string) : M unit :=
  throw "assignItem not implemented. Replace with board-specific mutation.".

(** [createSubtask(parentItemId, title)]. *)
Definition createSubtask (parentItemId title : string) : M unit :=
  throw "createSubtask not implemented.".

End MondayApi.

(* ===================================================================== *)
(** ** src/server/db.js [getDB] and src/server/test-save.js *)
(* ===================================================================== *)

Module Maintenance.

(** [getDB()]. *)
Definition getDB : M unit :=
  let* w := get in
  if negb (db w) then throw "DB not connected. Call connectDB() first."
  else ret tt.

(** [collection.deleteOne({ access_token })]: the first document holding
    the token goes. *)
Fixpoint deleteOne (token : string) (c : list TokenDoc) : list TokenDoc :=
  match c with
  | [] => []
  | d :: rest =>
      if String.eqb (access_token d) token then rest
      else d :: deleteOne token rest
  end.

(** [run().catch(...)] of the script that removes the debugging token;
    without a handle [db.collection] throws. *)
Definition run (x : Ext) : M unit :=
  try_catch
    (let* handle := Db.connectDB x in
     if negb handle then throw "TypeError: cannot read properties of null"
     else if db_write_ok x then
       modify (fun w => set_tokens (deleteOne "TEST_TOKEN_DEBUG" (tokens w)) w) ;;
       modify (set_exit 0)
     else throw "deleteOne rejected")
    (fun _ => modify (set_exit 1)).

End Maintenance.

(* ===================================================================== *)
(** ** Sample requests, states and outcomes *)
(* ===================================================================== *)

Module Samples.

Definition handshake_req : Request :=
  mkReq None None None "https" "relay.example"
        (Some (JObj [("challenge", JStr "abc")])).

Definition empty_challenge_req : Request :=
  mkReq None None None "https" "relay.example"
        (Some (JObj [("challenge", JStr "")])).

Definition callback_req : Request :=
  mkReq (Some "code-1") None None "https" "relay.example" None.

Definition board_req (board : string) : Request :=
  mkReq None (Some board) None "https" "relay.example" None.

(** A process with a database configured and connected, no token yet. *)
Definition connected : World :=
  set_db true (ServerJs.boot {["MONGODB_URI" := "mongodb://db.example/relay"]} []).

(** The provider grants "tok123"; the database write is rejected. *)
Definition granted_write_fails : Ext :=
  mkExt (Some (Some (mkTokenData (Some "tok123") (Some "ref1") (Some 3600))))
        (Some (JObj [])) true false true 1700000000000 1700000000001 true.

(** The provider answers without an access token. *)
Definition not_granted : Ext :=
  mkExt (Some (Some (mkTokenData None None None)))
        (Some (JObj [])) true true true 1700000000000 1700000000001 true.

(** Every outside call succeeds. *)
Definition all_ok : Ext :=
  mkExt (Some (Some (mkTokenData (Some "tok123") (Some "ref1") (Some 3600))))
        (Some (JObj [])) true true true 1700000000000 1700000000001 true.

(** A stored credential for the board service. *)
Definition stored_monday : list TokenDoc :=
  [mkDoc "monday" "tok123" None None 1690000000000].

(** A stored credential whose token is the empty string. *)
Definition stored_empty : list TokenDoc :=
  [mkDoc "monday" "" None None 1690000000000].

(** A connected process that already holds the token "tok123". *)
Definition authorized : World := set_mondayAccessToken "tok123" connected.

Definition db_env : gmap string string :=
  {["MONGODB_URI" := "mongodb://db.example/relay"]}.

(** An environment that carries a token and no database address. *)
Definition token_env : gmap string string :=
  {["MONDAY_ACCESS_TOKEN" := "envtok"]}.

(** A first address setting without scheme, a well-formed second one. *)
Definition masked_env : gmap string string :=
  <["MONDAY_PUBLIC_URL" := "relay.example"]>
    {["PUBLIC_URL" := "https://pub.example"]}.

(** A connected process whose library holds the token "tok123". *)
Definition authorized_lib : World := set_oauthToken "tok123" connected.

(** An environment with a client id. *)
Definition client_env : gmap string string :=
  {["MONDAY_CLIENT_ID" := "client-42"]}.

(** The provider answers the query with one item in status Done. *)
Definition item_answer : json :=
  JObj [("data",
         JObj [("items",
                JArr [JObj [("id", JStr "77"); ("name", JStr "Ship it");
                            ("column_values",
                             JArr [JObj [("id", JStr "owner");
                                         ("text", JStr "Ada")];
                                   JObj [("id", JStr "status");
                                         ("text", JStr "Done")]]);
                            ("url", JStr "https://b.example/77")]])])].

Definition answers (j : json) : Ext :=
  mkExt None (Some j) true true true 1700000000000 1700000000001 true.

(** A collection with two debugging credentials. *)
Definition two_debug_tokens : list TokenDoc :=
  [mkDoc "monday" "tok123" None None 1;
   mkDoc "probe" "TEST_TOKEN_DEBUG" None None 2;
   mkDoc "cliq" "c-tok" None None 3;
   mkDoc "probe2" "TEST_TOKEN_DEBUG" None None 4].

(** A collection with the debugging credential between two others. *)
Definition with_debug_token : list TokenDoc :=
  [mkDoc "monday" "tok123" None None 1; mkDoc "probe" "TEST_TOKEN_DEBUG" None None 2;
   mkDoc "cliq" "c-tok" None None 3].

(** A request with its board parameter replaced. *)
Definition with_board (board : string) (req : Request) : Request :=
  mkReq (q_code req) (Some board) (x_forwarded_proto req) (protocol req)
        (host req) (body req).

(** The last character of a string is a slash. *)
Fixpoint ends_with_slash (s : string) : bool :=
  match s with
  | EmptyString => false
  | String c EmptyString => Ascii.eqb c "/"%char
  | String _ rest => ends_with_slash rest
  end.

(** A decimal digit. *)
Definition is_digit (c : ascii) : bool :=
  match digit_of c with Some _ => true | None => false end.

(** The database and the provider are unreachable. *)
Definition unreachable : Ext :=
  mkExt None None false false false 1700000000000 1700000000001 false.

End Samples.

(* ===================================================================== *)
(** ** Proof support *)
(* ===================================================================== *)

Ltac unfold_monad :=
  unfold setenv, getenv in *;
  unfold bind, ret, throw, try_catch, get, modify in *.

Lemma str_truthy_true (s : string) : str_truthy s = true <-> s <> "".
Proof.
  unfold str_truthy. destruct s; simpl; split; try congruence; auto.
Qed.

Lemma str_truthy_false (s : string) : str_truthy s = false <-> s = "".
Proof.
  unfold str_truthy. destruct s; simpl; split; try congruence; auto.
Qed.

Lemma opt_truthy_Some (o : option string) :
  opt_truthy o = true <-> exists s, o = Some s /\ s <> "".
Proof.
  destruct o as [s|]; simpl.
  - rewrite str_truthy_true. split.
    + intros H. exists s. auto.
    + intros (s' & E & H). congruence.
  - split; [discriminate | intros (s & E & _); discriminate].
Qed.

Lemma challenge_of_truthy (b c : json) :
  challenge_of b = Some c -> truthy b = true.
Proof. destruct b; simpl; intros H; congruence. Qed.

(** The string helpers on small inputs. *)
Example parseInt_examples :
  parseInt (Some "123456789") = Num 123456789 /\
  parseInt (Some "  -12ab") = Num (-12) /\
  parseInt (Some "12.5") = Num 12 /\
  parseInt (Some "abc") = NaN /\
  parseInt (Some "") = NaN /\
  parseInt None = NaN /\
  number_truthy (parseInt (Some "0")) = false /\
  parseInt (Some (String "194" (String "160" "12"))) = Num 12 /\
  parseInt (Some "9007199254740993") = Num 9007199254740992 /\
  parseInt (Some "12345678901234567890") = Num 12345678901234567168.
Proof. repeat split. Qed.

Example strip_trailing_slash_examples :
  strip_trailing_slash "https://relay.example/" = "https://relay.example" /\
  strip_trailing_slash "https://relay.example//" = "https://relay.example/" /\
  strip_trailing_slash "https://relay.example" = "https://relay.example" /\
  strip_trailing_slash "/" = "".
Proof. repeat split. Qed.

Example getPublicUrl_examples :
  fst (getPublicUrl (Samples.board_req "1")
         (ServerJs.boot {["PUBLIC_URL" := "https://pub.example/"]} []))
    = Ok "https://pub.example" /\
  fst (getPublicUrl (Samples.board_req "1")
         (ServerJs.boot {["PUBLIC_URL" := "ftp://pub.example/"]} []))
    = Ok "https://relay.example" /\
  fst (getPublicUrl
         (mkReq None None (Some "https") "http" "relay.example" None)
         (ServerJs.boot ∅ []))
    = Ok "https://relay.example".
Proof. repeat split. Qed.

(* ===================================================================== *)
(** ** Webhook receiver *)
(* ===================================================================== *)

(** C1, as stated, fails: a body that carries a [challenge] field whose
    value is the empty string is answered with the plain acknowledgement,
    not with the echo. *)
Lemma C1_empty_challenge_not_echoed :
  (body Samples.empty_challenge_req ≫= challenge_of) = Some (JStr "") /\
  fst (Part000.webhook_monday Samples.empty_challenge_req (Part000.boot ∅ []))
    = Ok (mkResp 200 (Text "ok")) /\
  fst (Part000.webhook_monday Samples.empty_challenge_req (Part000.boot ∅ []))
    <> Ok (mkResp 200 (Json (JObj [("challenge", JStr "")]))).
Proof. repeat split. discriminate. Qed.

(** C1 (amended): the handshake-aware receiver answers a body whose
    [challenge] field is truthy with status 200 and exactly the object
    [{challenge: <same value>}]; a body without the field, or with a falsy
    one, gets status 200 and the plain text acknowledgement. The state is
    left as it was. *)
Theorem C1_challenge_echo (req : Request) (w : World) :
  (forall b c, body req = Some b -> challenge_of b = Some c ->
     truthy c = true ->
     Part000.webhook_monday req w
       = (Ok (mkResp 200 (Json (JObj [("challenge", c)]))), w)) /\
  (forall b c, body req = Some b -> challenge_of b = Some c ->
     truthy c = false ->
     Part000.webhook_monday req w = (Ok (mkResp 200 (Text "ok")), w)) /\
  ((body req ≫= challenge_of) = None ->
     Part000.webhook_monday req w = (Ok (mkResp 200 (Text "ok")), w)).
Proof.
  unfold Part000.webhook_monday. repeat split.
  - intros b c Hb Hc Ht. rewrite Hb, (challenge_of_truthy _ _ Hc), Hc, Ht.
    reflexivity.
  - intros b c Hb Hc Ht. rewrite Hb, (challenge_of_truthy _ _ Hc), Hc, Ht.
    reflexivity.
  - destruct (body req) as [b|]; simpl; [|reflexivity].
    intros Hn. rewrite Hn. destruct (truthy b); reflexivity.
Qed.

(** C1 at the handshake body [{challenge: abc}] of the specification. *)
Lemma C1_challenge_echo_witness :
  body Samples.handshake_req = Some (JObj [("challenge", JStr "abc")]) /\
  challenge_of (JObj [("challenge", JStr "abc")]) = Some (JStr "abc") /\
  truthy (JStr "abc") = true /\
  Part000.webhook_monday Samples.handshake_req (Part000.boot ∅ [])
    = (Ok (mkResp 200 (Json (JObj [("challenge", JStr "abc")]))),
       Part000.boot ∅ []).
Proof.
  split; [reflexivity | split; [reflexivity | split; [reflexivity |]]].
  apply (proj1 (C1_challenge_echo Samples.handshake_req (Part000.boot ∅ []))
               (JObj [("challenge", JStr "abc")]) (JStr "abc"));
    reflexivity.
Defined.

(** The receivers of src/server/server.js and part_001 have no handshake:
    whatever the body, the answer is the plain acknowledgement. *)
Lemma webhook_monday_without_handshake (req : Request) (w : World) :
  ServerJs.webhook_monday req w = (Ok (mkResp 200 (Text "ok")), w) /\
  Part001.webhook_monday req w = (Ok (mkResp 200 (Text "ok")), w).
Proof. split; reflexivity. Qed.

(* ===================================================================== *)
(** ** OAuth exchange *)
(* ===================================================================== *)

(** C2: when the provider's answer carries a non-empty access token [t],
    the callback answers with the success page and afterwards the cached
    token read yields [t] (both the in-process variable and the environment
    setting hold [t]), whatever the outcome of the database write; when that
    write is rejected the stored documents stay as they were. *)
Theorem C2_oauth_success_despite_store_failure
    (x : Ext) (req : Request) (w : World) (d : TokenData) (t : string)
    (r : Res Response) (w' : World) :
  opt_truthy (q_code req) = true ->
  token_endpoint x = Some (Some d) ->
  td_access_token d = Some t ->
  t <> "" ->
  ServerJs.oauth_callback x req w = (r, w') ->
  r = Ok ServerJs.oauth_done /\
  fst (currentToken w') = Ok (Some t) /\
  mondayAccessToken w' = t /\
  env w' !! "MONDAY_ACCESS_TOKEN" = Some t /\
  (db_write_ok x = false -> tokens w' = tokens w).
Proof.
  intros Hc Hx Hd Ht.
  unfold ServerJs.oauth_callback. rewrite Hc. simpl negb. cbv iota.
  unfold post_token, MondayLib.setToken, Db.saveToken, currentToken.
  unfold_monad.
  rewrite Hx. simpl. rewrite Hd. simpl.
  apply str_truthy_true in Ht. rewrite Ht.
  destruct w as [mat ot e [] tk snt lis ex ix], (db_write_ok x); simpl;
    intros [= <- <-]; simpl;
    unfold str_or; rewrite Ht, lookup_insert_eq;
    repeat split; auto; discriminate.
Qed.

(** C2 at an exchange that grants tok123 while the database write is rejected. *)
Lemma C2_oauth_success_despite_store_failure_witness :
  opt_truthy (q_code Samples.callback_req) = true /\
  token_endpoint Samples.granted_write_fails
    = Some (Some (mkTokenData (Some "tok123") (Some "ref1") (Some 3600))) /\
  db Samples.connected = true /\
  db_write_ok Samples.granted_write_fails = false /\
  fst (ServerJs.oauth_callback Samples.granted_write_fails
         Samples.callback_req Samples.connected) = Ok ServerJs.oauth_done /\
  fst (currentToken
         (snd (ServerJs.oauth_callback Samples.granted_write_fails
                 Samples.callback_req Samples.connected)))
    = Ok (Some "tok123").
Proof.
  pose proof (C2_oauth_success_despite_store_failure
                Samples.granted_write_fails Samples.callback_req
                Samples.connected
                (mkTokenData (Some "tok123") (Some "ref1") (Some 3600))
                "tok123" _ _
                eq_refl eq_refl eq_refl ltac:(discriminate)
                (surjective_pairing _)) as (Hr & Hc & _).
  split; [reflexivity | split; [reflexivity | split; [reflexivity |
    split; [reflexivity | split; [exact Hr | exact Hc]]]]].
Defined.

(** C3: when the provider's answer has no access token (no body, no field,
    or an empty string), the callback answers with status 500 and leaves
    the in-process token, the library token, the environment and the stored
    documents as they were. *)
Theorem C3_missing_access_token_changes_nothing
    (x : Ext) (req : Request) (w : World) (data : option TokenData)
    (r : Res Response) (w' : World) :
  opt_truthy (q_code req) = true ->
  token_endpoint x = Some data ->
  absent (data ≫= td_access_token) ->
  ServerJs.oauth_callback x req w = (r, w') ->
  r = Ok (mkResp 500 (Text "Token exchange did not return access_token. Check server logs.")) /\
  mondayAccessToken w' = mondayAccessToken w /\
  oauthToken w' = oauthToken w /\
  env w' = env w /\
  db w' = db w /\
  tokens w' = tokens w.
Proof.
  intros Hc Hx Ha.
  unfold ServerJs.oauth_callback. rewrite Hc. simpl negb. cbv iota.
  unfold post_token. unfold_monad. rewrite Hx.
  destruct data as [d|]; simpl in *.
  - unfold absent in Ha. rewrite Ha. intros [= <- <-]. repeat split.
  - intros [= <- <-]. repeat split.
Qed.

(** C3 at an answer of the provider that has no access token. *)
Lemma C3_missing_access_token_changes_nothing_witness :
  opt_truthy (q_code Samples.callback_req) = true /\
  token_endpoint Samples.not_granted
    = Some (Some (mkTokenData None None None)) /\
  absent (Some (mkTokenData None None None) ≫= td_access_token) /\
  tokens (snd (ServerJs.oauth_callback Samples.not_granted
                 Samples.callback_req Samples.connected))
    = tokens Samples.connected.
Proof.
  pose proof (C3_missing_access_token_changes_nothing
                Samples.not_granted Samples.callback_req Samples.connected
                (Some (mkTokenData None None None)) _ _
                eq_refl eq_refl eq_refl (surjective_pairing _))
    as (_ & _ & _ & _ & _ & Ht).
  split; [reflexivity | split; [reflexivity | split; [reflexivity |
    exact Ht]]].
Defined.

(** X9: the callbacks of the three entry points differ in their messages
    only: same status, same state afterwards. *)
Lemma oauth_callback_variants (x : Ext) (req : Request) (w : World) :
  snd (Part000.oauth_callback x req w)
    = snd (ServerJs.oauth_callback x req w) /\
  snd (Part001.oauth_callback x req w)
    = snd (ServerJs.oauth_callback x req w) /\
  status_of (fst (Part000.oauth_callback x req w))
    = status_of (fst (ServerJs.oauth_callback x req w)) /\
  status_of (fst (Part001.oauth_callback x req w))
    = status_of (fst (ServerJs.oauth_callback x req w)).
Proof.
  unfold Part000.oauth_callback, Part001.oauth_callback,
    ServerJs.oauth_callback, post_token, MondayLib.setToken, Db.saveToken.
  unfold_monad.
  destruct w as [mat ot e dbf tk snt lis ex ix].
  destruct (opt_truthy (q_code req)); cbn [negb]; [|repeat split].
  destruct (token_endpoint x) as [[d|]|]; cbn; [|repeat split..].
  destruct (opt_truthy (td_access_token d)); cbn; [|repeat split].
  destruct dbf; cbn; [|repeat split].
  destruct (db_write_ok x); cbn; repeat split.
Qed.

(** X8: a rejected token request (transport failure, non-2xx status) is
    answered with status 500 as well, and nothing is stored. *)
Lemma oauth_transport_failure
    (x : Ext) (req : Request) (w : World) :
  opt_truthy (q_code req) = true ->
  token_endpoint x = None ->
  fst (ServerJs.oauth_callback x req w)
    = Ok (mkResp 500 (Text "OAuth token exchange failed. See server logs.")) /\
  mondayAccessToken (snd (ServerJs.oauth_callback x req w))
    = mondayAccessToken w /\
  env (snd (ServerJs.oauth_callback x req w)) = env w /\
  tokens (snd (ServerJs.oauth_callback x req w)) = tokens w.
Proof.
  intros Hc Hx.
  unfold ServerJs.oauth_callback. rewrite Hc. simpl negb. cbv iota.
  unfold post_token. unfold_monad. rewrite Hx. simpl. repeat split.
Qed.

(* ===================================================================== *)
(** ** Token cache and webhook registration *)
(* ===================================================================== *)

Lemma getToken_state (x : Ext) (svc : string) (w : World) :
  snd (Db.getToken x svc w) = w.
Proof.
  unfold Db.getToken. unfold_monad.
  destruct (db w); simpl; [destruct (db_read_ok x)|]; reflexivity.
Qed.

Lemma getToken_truthy (x : Ext) (svc : string) (w : World) (t : string) :
  fst (Db.getToken x svc w) = Ok (Some t) -> t <> "".
Proof.
  unfold Db.getToken. unfold_monad.
  destruct (db w); simpl; [destruct (db_read_ok x)|]; simpl;
    try discriminate.
  unfold str_or_null.
  destruct (opt_truthy (access_token <$> Db.findOne svc (tokens w))) eqn:E;
    [|discriminate].
  intros [= Hs]. rewrite Hs in E. simpl in E. now apply str_truthy_true.
Qed.

(** C4: with a board id in the request and no token in the in-process
    variable, in the environment or from the database lookup (not
    connected, lookup rejected, no document, or an empty token), the
    registration handler answers with status 400 and the instruction to run
    the OAuth flow, and no call goes out to the provider. *)
Theorem C4_no_token_no_provider_call
    (x : Ext) (req : Request) (w : World) (r : Res Response) (w' : World) :
  opt_truthy (q_board req) = true ->
  mondayAccessToken w = "" ->
  absent (env w !! "MONDAY_ACCESS_TOKEN") ->
  (forall t, fst (Db.getToken x "monday" w) = Ok t -> absent t) ->
  ServerJs.create_webhook x req w = (r, w') ->
  r = Ok ServerJs.not_authorized /\ sent w' = sent w /\ w' = w.
Proof.
  intros Hb Hm He Hdb.
  unfold ServerJs.create_webhook. rewrite Hb.
  unfold ServerJs.resolveToken, currentToken, MondayLib.setToken.
  unfold_monad. cbn [negb]. rewrite Hm. unfold str_or.
  cbn [str_truthy String.eqb negb].
  unfold absent in He. rewrite He. cbn [negb].
  pose proof (getToken_state x "monday" w) as Hs.
  destruct (Db.getToken x "monday" w) as [[t|msg] w1] eqn:Eg;
    simpl in Hs; subst w1.
  - pose proof (Hdb t eq_refl) as Ht. unfold absent in Ht. rewrite Ht.
    rewrite Ht. cbn [negb]. intros [= <- <-]. auto.
  - rewrite He. cbn [negb]. intros [= <- <-]. auto.
Qed.

(** C4 at a connected process whose collection is empty. *)
Lemma C4_no_token_no_provider_call_witness :
  opt_truthy (q_board (Samples.board_req "123456789")) = true /\
  mondayAccessToken Samples.connected = "" /\
  absent (env Samples.connected !! "MONDAY_ACCESS_TOKEN") /\
  fst (ServerJs.create_webhook Samples.all_ok
         (Samples.board_req "123456789") Samples.connected)
    = Ok ServerJs.not_authorized /\
  sent (snd (ServerJs.create_webhook Samples.all_ok
               (Samples.board_req "123456789") Samples.connected))
    = sent Samples.connected.
Proof.
  assert (Hdb : forall t,
             fst (Db.getToken Samples.all_ok "monday" Samples.connected)
               = Ok t -> absent t).
  { intros t [= <-]. reflexivity. }
  pose proof (C4_no_token_no_provider_call
                Samples.all_ok (Samples.board_req "123456789")
                Samples.connected _ _
                eq_refl eq_refl eq_refl Hdb (surjective_pairing _))
    as (Hr & Hs & _).
  split; [reflexivity | split; [reflexivity | split; [reflexivity |
    split; [exact Hr | exact Hs]]]].
Defined.

(** C5: the token read of the registration handler takes the in-process
    variable, then the environment setting, then the database, and the
    first non-empty one wins. The cached read alone returns the environment
    value when the in-process variable is empty, returns nothing usable
    when both are empty, and neither depends on the database nor changes
    the state. *)
Theorem C5_token_read_precedence (x : Ext) (w : World) :
  (mondayAccessToken w <> "" ->
     fst (ServerJs.resolveToken x w) = Ok (Some (mondayAccessToken w))) /\
  (mondayAccessToken w = "" ->
     forall v, env w !! "MONDAY_ACCESS_TOKEN" = Some v -> v <> "" ->
     fst (ServerJs.resolveToken x w) = Ok (Some v)) /\
  (mondayAccessToken w = "" -> absent (env w !! "MONDAY_ACCESS_TOKEN") ->
     forall t, fst (Db.getToken x "monday" w) = Ok (Some t) ->
     fst (ServerJs.resolveToken x w) = Ok (Some t)) /\
  (mondayAccessToken w = "" ->
     forall v, env w !! "MONDAY_ACCESS_TOKEN" = Some v ->
     fst (currentToken w) = Ok (Some v)) /\
  (mondayAccessToken w = "" -> absent (env w !! "MONDAY_ACCESS_TOKEN") ->
     exists t, fst (currentToken w) = Ok t /\ absent t) /\
  (mondayAccessToken w = "" -> env w !! "MONDAY_ACCESS_TOKEN" = None ->
     fst (currentToken w) = Ok None) /\
  (forall c b, fst (currentToken (set_db b (set_tokens c w)))
               = fst (currentToken w)) /\
  snd (currentToken w) = w.
Proof.
  unfold ServerJs.resolveToken, currentToken, MondayLib.setToken.
  unfold_monad. cbn [fst snd]. unfold str_or.
  repeat split.
  - intros Hm. apply str_truthy_true in Hm. rewrite Hm. cbn [opt_truthy].
    rewrite Hm. reflexivity.
  - intros Hm v He Hv. rewrite Hm, He. cbn [str_truthy String.eqb negb].
    apply str_truthy_true in Hv. cbn [opt_truthy]. rewrite Hv. reflexivity.
  - intros Hm He t Hg. rewrite Hm. cbn [str_truthy String.eqb negb].
    unfold absent in He. rewrite He. cbn [negb].
    pose proof (getToken_truthy x "monday" w t Hg) as Ht.
    apply str_truthy_true in Ht.
    destruct (Db.getToken x "monday" w) as [r1 w1]. cbn [fst] in Hg.
    rewrite Hg. cbn [opt_truthy]. rewrite Ht. reflexivity.
  - intros Hm v He. rewrite Hm, He. reflexivity.
  - intros Hm He. rewrite Hm. cbn [str_truthy String.eqb negb]. eauto.
  - intros Hm He. rewrite Hm, He. reflexivity.
Qed.

(** C5 at a process whose only token is the environment setting. *)
Lemma C5_token_read_precedence_witness :
  mondayAccessToken (Part000.boot {["MONDAY_ACCESS_TOKEN" := "envtok"]} []) = "" /\
  env (Part000.boot {["MONDAY_ACCESS_TOKEN" := "envtok"]} [])
    !! "MONDAY_ACCESS_TOKEN" = Some "envtok" /\
  fst (currentToken (Part000.boot {["MONDAY_ACCESS_TOKEN" := "envtok"]} []))
    = Ok (Some "envtok") /\
  fst (ServerJs.resolveToken Samples.all_ok
         (Part000.boot {["MONDAY_ACCESS_TOKEN" := "envtok"]} []))
    = Ok (Some "envtok").
Proof.
  pose proof (C5_token_read_precedence Samples.all_ok
                (Part000.boot {["MONDAY_ACCESS_TOKEN" := "envtok"]} []))
    as (_ & Hr & _ & Hc & _).
  split; [reflexivity | split; [reflexivity | split]].
  - exact (Hc eq_refl "envtok" eq_refl).
  - exact (Hr eq_refl "envtok" eq_refl ltac:(discriminate)).
Defined.

(* ===================================================================== *)
(** ** Token store *)
(* ===================================================================== *)

Lemma findOne_updateOne (svc : string) (doc : TokenDoc) (c : list TokenDoc) :
  service doc = svc -> Db.findOne svc (Db.updateOne svc doc c) = Some doc.
Proof.
  intros Hs. unfold Db.findOne.
  induction c as [|d rest IH]; simpl.
  - rewrite Hs, String.eqb_refl. reflexivity.
  - destruct (String.eqb (service d) svc) eqn:E; simpl.
    + rewrite Hs, String.eqb_refl. reflexivity.
    + rewrite E. exact IH.
Qed.

(** Other services keep their first document. *)
Lemma findOne_updateOne_other (svc svc' : string) (doc : TokenDoc)
    (c : list TokenDoc) :
  service doc = svc -> svc' <> svc ->
  Db.findOne svc' (Db.updateOne svc doc c) = Db.findOne svc' c.
Proof.
  intros Hs Hne. unfold Db.findOne.
  assert (Hd : String.eqb (service doc) svc' = false).
  { rewrite Hs. apply String.eqb_neq. congruence. }
  induction c as [|d rest IH]; simpl.
  - rewrite Hd. reflexivity.
  - destruct (String.eqb (service d) svc) eqn:E; simpl.
    + rewrite Hd. apply String.eqb_eq in E. rewrite E.
      replace (String.eqb svc svc') with false; [reflexivity|].
      symmetry. apply String.eqb_neq. congruence.
    + destruct (String.eqb (service d) svc'); [reflexivity | exact IH].
Qed.

(** C6: on a connected store, for a non-empty access token and any refresh
    token, lifetime and service name, a successful [saveToken] followed by
    a successful [getToken] on the same service returns the token that was
    saved. *)
Theorem C6_put_then_get
    (x x' : Ext) (svc token : string) (refresh : option string)
    (expires_in : option Z) (w : World) :
  db w = true ->
  db_write_ok x = true ->
  db_read_ok x' = true ->
  token <> "" ->
  fst ((Db.saveToken x svc token refresh expires_in ;; Db.getToken x' svc) w)
    = Ok (Some token).
Proof.
  intros Hdb Hw Hr Ht.
  unfold Db.saveToken, Db.getToken. unfold_monad.
  rewrite Hdb, Hw. cbn [negb fst snd db tokens set_tokens].
  rewrite Hdb, Hr. cbn [negb fst].
  rewrite findOne_updateOne by reflexivity. cbn.
  unfold str_or_null. cbn. apply str_truthy_true in Ht. rewrite Ht.
  reflexivity.
Qed.

(** C6 at the token tok123 saved for monday. *)
Lemma C6_put_then_get_witness :
  db Samples.connected = true /\
  db_write_ok Samples.all_ok = true /\
  db_read_ok Samples.all_ok = true /\
  fst ((Db.saveToken Samples.all_ok "monday" "tok123" (Some "ref1")
          (Some 3600) ;;
        Db.getToken Samples.all_ok "monday") Samples.connected)
    = Ok (Some "tok123").
Proof.
  split; [reflexivity | split; [reflexivity | split; [reflexivity |]]].
  apply (C6_put_then_get Samples.all_ok Samples.all_ok "monday" "tok123"
           (Some "ref1") (Some 3600) Samples.connected);
    [reflexivity | reflexivity | reflexivity | discriminate].
Defined.

(** C9, as stated, fails: a lifetime of zero seconds is an argument that
    was provided, yet the stored document has no expiry instead of
    [now + 0]. *)
Lemma C9_zero_lifetime_not_recorded :
  expires_at <$>
    Db.findOne "monday"
      (tokens (snd (Db.saveToken Samples.all_ok "monday" "tok123" None
                      (Some 0) Samples.connected)))
    = Some None /\
  expires_at <$>
    Db.findOne "monday"
      (tokens (snd (Db.saveToken Samples.all_ok "monday" "tok123" None
                      (Some 0) Samples.connected)))
    <> Some (Some (At (date_now Samples.all_ok + 0 * 1000))).
Proof. split; [reflexivity | discriminate]. Qed.

(** C9 (amended): a successful [saveToken] on a connected store returns and
    stores, for the service, a document whose [expires_at] is
    [now + expires_in] (the lifetime counted in seconds, the dates in
    milliseconds) when the lifetime is provided, is not zero and that
    instant lies within the range of a [Date] (at most 8.64e15 ms from the
    epoch), and is absent when the lifetime is not provided or is zero. *)
Theorem C9_expires_at
    (x : Ext) (svc token : string) (refresh : option string)
    (expires_in : option Z) (w : World) :
  db w = true ->
  db_write_ok x = true ->
  exists doc,
    fst (Db.saveToken x svc token refresh expires_in w) = Ok (Some doc) /\
    Db.findOne svc
      (tokens (snd (Db.saveToken x svc token refresh expires_in w)))
      = Some doc /\
    (forall n, expires_in = Some n -> n <> 0 ->
       -8640000000000000 <= date_now x + n * 1000 <= 8640000000000000 ->
       expires_at doc = Some (At (date_now x + n * 1000))) /\
    (expires_in = None \/ expires_in = Some 0 -> expires_at doc = None).
Proof.
  intros Hdb Hw.
  unfold Db.saveToken. unfold_monad. rewrite Hdb, Hw.
  cbn [negb fst snd tokens set_tokens].
  eexists. split; [reflexivity|]. split.
  - apply findOne_updateOne. reflexivity.
  - cbn [expires_at]. split.
    + intros n -> Hn [Hlo Hhi]. cbn [num_truthy default].
      apply Z.eqb_neq in Hn. rewrite Hn. cbn [negb id]. unfold new_Date.
      apply Z.leb_le in Hlo, Hhi. now rewrite Hlo, Hhi.
    + intros [-> | ->]; reflexivity.
Qed.

(** C9 at a lifetime of 3600 seconds. *)
Lemma C9_expires_at_witness :
  db Samples.connected = true /\
  db_write_ok Samples.all_ok = true /\
  -8640000000000000 <= date_now Samples.all_ok + 3600 * 1000
    <= 8640000000000000 /\
  expires_at <$>
    Db.findOne "monday"
      (tokens (snd (Db.saveToken Samples.all_ok "monday" "tok123" None
                      (Some 3600) Samples.connected)))
    = Some (Some (At (1700000000000 + 3600 * 1000))).
Proof.
  assert (Hr : -8640000000000000 <= date_now Samples.all_ok + 3600 * 1000
               <= 8640000000000000) by (vm_compute; split; discriminate).
  destruct (C9_expires_at Samples.all_ok "monday" "tok123" None (Some 3600)
              Samples.connected eq_refl eq_refl)
    as (doc & _ & Hf & He & _).
  split; [reflexivity | split; [reflexivity | split; [exact Hr|]]].
  rewrite Hf. cbn [fmap option_fmap option_map].
  rewrite (He 3600 eq_refl ltac:(discriminate) Hr). reflexivity.
Defined.

(** C10: when the first document of a service holds the empty string as
    access token, [getToken] returns [null] on a connected store, and its
    result is the one it gives for a collection without any document of
    that service. *)
Theorem C10_empty_token_reads_as_absent
    (x : Ext) (svc : string) (w : World) (d : TokenDoc) :
  Db.findOne svc (tokens w) = Some d ->
  access_token d = "" ->
  (db w = true -> db_read_ok x = true ->
     fst (Db.getToken x svc w) = Ok None) /\
  (forall c, Db.findOne svc c = None ->
     fst (Db.getToken x svc w) = fst (Db.getToken x svc (set_tokens c w))).
Proof.
  intros Hf Ha. unfold Db.getToken. unfold_monad.
  cbn [db tokens set_tokens]. split.
  - intros Hdb Hr. rewrite Hdb, Hr, Hf. cbn. rewrite Ha. reflexivity.
  - intros c Hc. rewrite Hf, Hc. cbn. rewrite Ha.
    destruct (db w); cbn; [destruct (db_read_ok x)|]; reflexivity.
Qed.

(** C10 at a collection whose monday document has an empty token. *)
Lemma C10_empty_token_reads_as_absent_witness :
  Db.findOne "monday" (tokens (set_tokens Samples.stored_empty Samples.connected))
    = Some (mkDoc "monday" "" None None 1690000000000) /\
  fst (Db.getToken Samples.all_ok "monday"
         (set_tokens Samples.stored_empty Samples.connected)) = Ok None.
Proof.
  split; [reflexivity|].
  apply (proj1 (C10_empty_token_reads_as_absent Samples.all_ok "monday"
                  (set_tokens Samples.stored_empty Samples.connected)
                  (mkDoc "monday" "" None None 1690000000000)
                  eq_refl eq_refl));
    reflexivity.
Defined.

(* ===================================================================== *)
(** ** Start-up *)
(* ===================================================================== *)

(** C7 at a concrete start: the database is configured and holds the token
    "tok123" for "monday", the environment has no token. After [start] of
    src/server/server.js the server listens with an empty in-process token
    and no environment setting: no lookup was made. The [start] of part_000
    and of part_001, from the same situation, listen with both seeded. *)
Theorem C7_server_js_start_skips_token_load :
  fst (Db.getToken Samples.all_ok "monday"
         (snd (Db.connectDB Samples.all_ok
                 (ServerJs.boot Samples.db_env Samples.stored_monday))))
    = Ok (Some "tok123") /\
  (listening (snd (ServerJs.start Samples.all_ok
                     (ServerJs.boot Samples.db_env Samples.stored_monday)))
     = true /\
   mondayAccessToken
     (snd (ServerJs.start Samples.all_ok
             (ServerJs.boot Samples.db_env Samples.stored_monday))) = "" /\
   env (snd (ServerJs.start Samples.all_ok
               (ServerJs.boot Samples.db_env Samples.stored_monday)))
     !! "MONDAY_ACCESS_TOKEN" = None) /\
  (listening (snd (Part000.start Samples.all_ok
                     (Part000.boot Samples.db_env Samples.stored_monday)))
     = true /\
   mondayAccessToken
     (snd (Part000.start Samples.all_ok
             (Part000.boot Samples.db_env Samples.stored_monday)))
     = "tok123" /\
   env (snd (Part000.start Samples.all_ok
               (Part000.boot Samples.db_env Samples.stored_monday)))
     !! "MONDAY_ACCESS_TOKEN" = Some "tok123") /\
  (listening (snd (Part001.start Samples.all_ok
                     (Part001.boot Samples.db_env Samples.stored_monday)))
     = true /\
   mondayAccessToken
     (snd (Part001.start Samples.all_ok
             (Part001.boot Samples.db_env Samples.stored_monday)))
     = "tok123" /\
   env (snd (Part001.start Samples.all_ok
               (Part001.boot Samples.db_env Samples.stored_monday)))
     !! "MONDAY_ACCESS_TOKEN" = Some "tok123").
Proof. vm_compute. repeat split. Qed.

(** [start] of src/server/server.js never touches the token, whatever the
    store holds. *)
Lemma ServerJs_start_leaves_token (x : Ext) (w : World) :
  mondayAccessToken (snd (ServerJs.start x w)) = mondayAccessToken w /\
  oauthToken (snd (ServerJs.start x w)) = oauthToken w /\
  env (snd (ServerJs.start x w)) = env w.
Proof.
  unfold ServerJs.start, Db.connectDB, listen. unfold_monad.
  destruct w as [mat ot e [] tk snt lis ex ix]; cbn;
    [destruct (listen_ok x); repeat split|].
  destruct (opt_truthy (e !! "MONGODB_URI")); cbn;
    [|destruct (listen_ok x); repeat split].
  destruct (db_connect_ok x); cbn; [destruct (listen_ok x)|]; repeat split.
Qed.

Section SeedingStart.

Variable x : Ext.
Variable w : World.
Variable saved : string.

(** The connection attempt does not fail, the store hands out a token and
    [app.listen] does not throw. *)
Hypothesis connected : exists b, fst (Db.connectDB x w) = Ok b.
Hypothesis found :
  fst (Db.getToken x "monday" (snd (Db.connectDB x w))) = Ok (Some saved).
Hypothesis listens : listen_ok x = true.

(** X19: [start] of part_000 and of part_001 look the token up once and
    seed the in-process variable, the library and the environment before
    they listen: when the connection attempt does not fail, the token is
    found and [app.listen] does not throw, they end listening with all
    three holding the token. *)
Lemma seeding_start_seeds :
  Part001.start x w = Part000.start x w /\
  mondayAccessToken (snd (Part000.start x w)) = saved /\
  oauthToken (snd (Part000.start x w)) = saved /\
  env (snd (Part000.start x w)) !! "MONDAY_ACCESS_TOKEN" = Some saved /\
  listening (snd (Part000.start x w)) = true /\
  exit_code (snd (Part000.start x w)) = exit_code w.
Proof.
  split; [reflexivity|].
  pose proof (getToken_truthy _ _ _ _ found) as Ht.
  apply str_truthy_true in Ht.
  pose proof (getToken_state x "monday" (snd (Db.connectDB x w))) as Hs.
  destruct connected as [b Hb].
  unfold Part000.start, MondayLib.setToken, listen. unfold_monad.
  rewrite listens.
  destruct (Db.connectDB x w) as [r1 w1] eqn:Ec.
  cbn [fst snd] in *. subst r1.
  destruct (Db.getToken x "monday" w1) as [r2 w2].
  cbn [fst snd] in *. subst r2 w2.
  cbn [opt_truthy default]. rewrite Ht.
  cbn [snd mondayAccessToken oauthToken env listening exit_code id
       set_listening set_env set_oauthToken set_mondayAccessToken].
  rewrite lookup_insert_eq. repeat split.
  unfold Db.connectDB in Ec. unfold_monad.
  destruct (db w); [congruence|].
  destruct (opt_truthy (env w !! "MONGODB_URI")); cbn in Ec;
    [|congruence].
  destruct (db_connect_ok x); cbn in Ec; [|discriminate].
  injection Ec as _ <-. reflexivity.
Qed.

End SeedingStart.

(* ===================================================================== *)
(** ** The registration mutation *)
(* ===================================================================== *)

(** C8 at two concrete requests: src/server/server.js sends one GraphQL
    call without variables whose query text is built around the board id,
    so the requests [?board=1] and [?board=2] send different texts. *)
Theorem C8_server_js_query_built_from_board_id :
  sent (snd (ServerJs.create_webhook Samples.all_ok (Samples.board_req "1")
               Samples.authorized))
    = [GraphQLPost "https://api.monday.com/v2"
         (ServerJs.mutation "1" "https://relay.example/webhook/monday")
         None "tok123"] /\
  sent (snd (ServerJs.create_webhook Samples.all_ok (Samples.board_req "2")
               Samples.authorized))
    = [GraphQLPost "https://api.monday.com/v2"
         (ServerJs.mutation "2" "https://relay.example/webhook/monday")
         None "tok123"] /\
  queries (sent (snd (ServerJs.create_webhook Samples.all_ok
                        (Samples.board_req "1") Samples.authorized)))
    <> queries (sent (snd (ServerJs.create_webhook Samples.all_ok
                             (Samples.board_req "2") Samples.authorized))).
Proof.
  split; [reflexivity | split; [reflexivity |]].
  vm_compute. discriminate.
Qed.

(** part_000 and part_001 send at most one GraphQL call per request, and
    its query text is the constant of the file, whatever the board id and
    the address of the request; the inputs travel in the variables. *)
Lemma parameterized_query_constant (x : Ext) (req : Request) (w : World) :
  (sent (snd (Part000.create_webhook x req w)) = sent w \/
   exists u tok,
     sent (snd (Part000.create_webhook x req w))
       = GraphQLPost "https://api.monday.com/v2" Part000.mutation
           (Some (JObj [("boardId", JStr (default "" (q_board req)));
                        ("url", JStr u)])) tok :: sent w) /\
  (sent (snd (Part001.create_webhook x req w)) = sent w \/
   exists u tok,
     sent (snd (Part001.create_webhook x req w))
       = GraphQLPost "https://api.monday.com/v2" Part001.query
           (Some (JObj [("boardId", json_of_number (parseInt (q_board req)));
                        ("url", JStr u)])) tok :: sent w).
Proof.
  split.
  - unfold Part000.create_webhook, Part000.resolveToken, currentToken,
      getPublicUrl, post_graphql, MondayLib.setToken, Db.getToken.
    unfold_monad.
    destruct w as [mat ot e dbf tk snt lis ex ix].
    cbn [mondayAccessToken oauthToken env db tokens sent].
    repeat (case_match; cbn [fst snd sent push_sent set_env set_oauthToken
                             set_mondayAccessToken] in *; simplify_eq);
      eauto.
  - unfold Part001.create_webhook, Part001.resolveToken, currentToken,
      getPublicUrl, post_graphql, MondayLib.setToken, Db.getToken.
    unfold_monad.
    destruct w as [mat ot e dbf tk snt lis ex ix].
    cbn [mondayAccessToken oauthToken env db tokens sent].
    repeat (case_match; cbn [fst snd sent push_sent set_env set_oauthToken
                             set_mondayAccessToken] in *; simplify_eq);
      eauto.
Qed.

(* ===================================================================== *)
(** ** More on the token store *)
(* ===================================================================== *)

Lemma updateOne_services (svc : string) (doc : TokenDoc) (c : list TokenDoc) :
  service doc = svc ->
  map service (Db.updateOne svc doc c)
    = if existsb (fun d => String.eqb (service d) svc) c
      then map service c
      else (map service c ++ [svc])%list.
Proof.
  intros Hs. induction c as [|d rest IH]; simpl.
  - now rewrite Hs.
  - destruct (String.eqb (service d) svc) eqn:E; simpl.
    + apply String.eqb_eq in E. now rewrite Hs, E.
    + rewrite IH. now destruct (existsb _ rest).
Qed.

Lemma existsb_service_false (svc : string) (c : list TokenDoc) :
  existsb (fun d => String.eqb (service d) svc) c = false ->
  svc ∉ map service c.
Proof.
  induction c as [|d rest IH]; simpl; intros H.
  - apply not_elem_of_nil.
  - apply orb_false_iff in H as [H1 H2]. apply not_elem_of_cons. split.
    + apply String.eqb_neq in H1. congruence.
    + now apply IH.
Qed.

Lemma updateOne_twice (svc : string) (d1 d2 : TokenDoc) (c : list TokenDoc) :
  service d1 = svc ->
  Db.updateOne svc d2 (Db.updateOne svc d1 c) = Db.updateOne svc d2 c.
Proof.
  intros Hs. induction c as [|d rest IH]; simpl.
  - now rewrite Hs, String.eqb_refl.
  - destruct (String.eqb (service d) svc) eqn:E; simpl.
    + now rewrite Hs, String.eqb_refl.
    + now rewrite E, IH.
Qed.

(** X1: [saveToken] keeps the collection at one document per service:
    when no two documents share a service before the call, none do after
    it, whatever the outcome of the write. *)
Theorem saveToken_keeps_services_unique
    (x : Ext) (svc token : string) (refresh : option string)
    (expires_in : option Z) (w : World) :
  NoDup (map service (tokens w)) ->
  NoDup (map service
           (tokens (snd (Db.saveToken x svc token refresh expires_in w)))).
Proof.
  intros Hn. unfold Db.saveToken. unfold_monad.
  destruct (db w); cbn [negb snd]; [|exact Hn].
  destruct (db_write_ok x); cbn [snd tokens set_tokens]; [|exact Hn].
  rewrite updateOne_services by reflexivity.
  destruct (existsb _ (tokens w)) eqn:E; [exact Hn|].
  apply NoDup_app. split; [exact Hn|]. split.
  - intros s Hin Hs. apply list_elem_of_singleton in Hs. subst s.
    now apply (existsb_service_false _ _ E).
  - apply NoDup_singleton.
Qed.

(** X1 at a collection that already holds the monday credential. *)
Lemma saveToken_keeps_services_unique_witness :
  NoDup (map service
           (tokens (set_tokens Samples.stored_monday Samples.connected))) /\
  NoDup (map service
           (tokens (snd (Db.saveToken Samples.all_ok "monday" "tok456" None
                           None
                           (set_tokens Samples.stored_monday
                                       Samples.connected))))).
Proof.
  assert (H : NoDup (map service
             (tokens (set_tokens Samples.stored_monday Samples.connected)))).
  { apply NoDup_singleton. }
  split; [exact H|].
  exact (saveToken_keeps_services_unique Samples.all_ok "monday" "tok456"
           None None _ H).
Defined.

(** X2: the last writer wins and the earlier write leaves no trace: two
    successful [saveToken] calls for one service leave the state, and
    return the document, that the second call alone would have. *)
Theorem saveToken_twice_is_last
    (x1 x2 : Ext) (svc t1 t2 : string) (r1 r2 : option string)
    (e1 e2 : option Z) (w : World) :
  db w = true ->
  db_write_ok x1 = true ->
  db_write_ok x2 = true ->
  (Db.saveToken x1 svc t1 r1 e1 ;; Db.saveToken x2 svc t2 r2 e2) w
    = Db.saveToken x2 svc t2 r2 e2 w.
Proof.
  intros Hdb Hw1 Hw2. unfold Db.saveToken. unfold_monad.
  rewrite Hdb, Hw1, Hw2. cbn [negb snd db set_tokens]. rewrite ?Hdb, ?Hw2.
  cbn [negb tokens set_tokens mondayAccessToken oauthToken env db sent
       listening exit_code].
  rewrite updateOne_twice by reflexivity. reflexivity.
Qed.

(** X2 at two grants for monday on a connected store. *)
Lemma saveToken_twice_is_last_witness :
  db Samples.connected = true /\
  db_write_ok Samples.all_ok = true /\
  tokens (snd ((Db.saveToken Samples.all_ok "monday" "old" (Some "r") (Some 60) ;;
                Db.saveToken Samples.all_ok "monday" "new" None None)
               Samples.connected))
    = [mkDoc "monday" "new" None None 1700000000001].
Proof.
  split; [reflexivity | split; [reflexivity |]].
  rewrite (saveToken_twice_is_last Samples.all_ok Samples.all_ok "monday"
             "old" "new" (Some "r") None (Some 60) None Samples.connected
             eq_refl eq_refl eq_refl).
  reflexivity.
Defined.

(** X3: a write for one service leaves the token read of every other
    service as it was. *)
Theorem saveToken_other_service_untouched
    (x x' : Ext) (svc svc' token : string) (refresh : option string)
    (expires_in : option Z) (w : World) :
  svc' <> svc ->
  fst (Db.getToken x' svc'
         (snd (Db.saveToken x svc token refresh expires_in w)))
    = fst (Db.getToken x' svc' w).
Proof.
  intros Hne. unfold Db.saveToken, Db.getToken. unfold_monad.
  destruct (db w) eqn:Hdb; cbn [negb snd]; [|now rewrite Hdb].
  destruct (db_write_ok x); cbn [snd db tokens set_tokens];
    rewrite Hdb; cbn [negb]; [|reflexivity].
  destruct (db_read_ok x'); [|reflexivity]. cbn [fst].
  now rewrite findOne_updateOne_other.
Qed.

(** X3 at a write for another service next to the monday credential. *)
Lemma saveToken_other_service_untouched_witness :
  "monday" <> "cliq" /\
  fst (Db.getToken Samples.all_ok "monday"
         (snd (Db.saveToken Samples.all_ok "cliq" "c-tok" None None
                 (set_tokens Samples.stored_monday Samples.connected))))
    = Ok (Some "tok123").
Proof.
  split; [discriminate|].
  rewrite (saveToken_other_service_untouched Samples.all_ok Samples.all_ok
             "cliq" "monday" "c-tok" None None
             (set_tokens Samples.stored_monday Samples.connected)
             ltac:(discriminate)).
  reflexivity.
Defined.

(** X4: [saveToken] is all or nothing and touches the collection only:
    either it returns the document, which is then the one [findOne] gives
    for the service, or the state is exactly as before (not connected:
    [null]; write rejected: an exception). *)
Theorem saveToken_all_or_nothing
    (x : Ext) (svc token : string) (refresh : option string)
    (expires_in : option Z) (w : World) :
  (exists doc,
     fst (Db.saveToken x svc token refresh expires_in w) = Ok (Some doc) /\
     db w = true /\
     access_token doc = token /\ refresh_token doc = refresh /\
     snd (Db.saveToken x svc token refresh expires_in w)
       = set_tokens (Db.updateOne svc doc (tokens w)) w /\
     Db.findOne svc
       (tokens (snd (Db.saveToken x svc token refresh expires_in w)))
       = Some doc)
  \/
  (snd (Db.saveToken x svc token refresh expires_in w) = w /\
   (db w = false ->
      fst (Db.saveToken x svc token refresh expires_in w) = Ok None) /\
   (db w = true ->
      exists msg,
        fst (Db.saveToken x svc token refresh expires_in w) = Throw msg)).
Proof.
  unfold Db.saveToken. unfold_monad.
  destruct (db w) eqn:Hdb; cbn [negb].
  - destruct (db_write_ok x); cbn [fst snd tokens set_tokens].
    + left. eexists. repeat split; try reflexivity.
      apply findOne_updateOne. reflexivity.
    + right. split; [reflexivity | split; [discriminate | eauto]].
  - right. split; [reflexivity | split; [reflexivity | discriminate]].
Qed.

(** X4 at a write that is rejected. *)
Lemma saveToken_all_or_nothing_witness :
  db Samples.connected = true /\
  snd (Db.saveToken Samples.granted_write_fails "monday" "tok123" None None
         Samples.connected) = Samples.connected /\
  exists msg,
    fst (Db.saveToken Samples.granted_write_fails "monday" "tok123" None
           None Samples.connected) = Throw msg.
Proof.
  split; [reflexivity|].
  destruct (saveToken_all_or_nothing Samples.granted_write_fails "monday"
              "tok123" None None Samples.connected)
    as [(doc & Hr & _) | (Hs & _ & Ht)].
  - discriminate Hr.
  - split; [exact Hs | exact (Ht eq_refl)].
Defined.

(* ===================================================================== *)
(** ** Connecting *)
(* ===================================================================== *)

(** X5: [connectDB] changes the connection handle and the index of the
    collection, nothing else. It returns a handle exactly when the state is
    connected afterwards, a first successful connection leaving the unique
    index on service in place; it returns [null] exactly when no address is
    configured on a process without handle, the state being untouched; and
    it throws only after a failed attempt, which leaves no handle and the
    index as it was. *)
Theorem connectDB_outcomes (x : Ext) (w : World) :
  snd (Db.connectDB x w)
    = set_service_index (service_index (snd (Db.connectDB x w)))
        (set_db (db (snd (Db.connectDB x w))) w) /\
  match fst (Db.connectDB x w) with
  | Ok true =>
      db (snd (Db.connectDB x w)) = true /\
      (if db w then snd (Db.connectDB x w) = w
       else service_index (snd (Db.connectDB x w)) = true)
  | Ok false =>
      db w = false /\ absent (env w !! "MONGODB_URI") /\
      snd (Db.connectDB x w) = w
  | Throw _ =>
      db w = false /\ db_connect_ok x = false /\
      db (snd (Db.connectDB x w)) = false /\
      service_index (snd (Db.connectDB x w)) = service_index w
  end.
Proof.
  unfold Db.connectDB, absent. unfold_monad.
  destruct w as [mat ot e [] tk snt lis ex ix]; cbn; [repeat split|].
  destruct (opt_truthy (e !! "MONGODB_URI")) eqn:E; cbn;
    [|repeat split].
  destruct (db_connect_ok x); cbn; repeat split.
Qed.

(** X6: once [connectDB] has returned a handle, later calls return it
    again without touching the state, whatever the network does, and
    [getDB] does not throw. *)
Theorem connectDB_idempotent (x x' : Ext) (w : World) :
  fst (Db.connectDB x w) = Ok true ->
  Db.connectDB x' (snd (Db.connectDB x w))
    = (Ok true, snd (Db.connectDB x w)) /\
  fst (Maintenance.getDB (snd (Db.connectDB x w))) = Ok tt.
Proof.
  unfold Db.connectDB, Maintenance.getDB. unfold_monad.
  destruct w as [mat ot e [] tk snt lis ex ix]; cbn; [split; reflexivity|].
  destruct (opt_truthy (e !! "MONGODB_URI")); cbn; [|discriminate].
  destruct (db_connect_ok x); cbn; [split; reflexivity | discriminate].
Qed.

(** X6 at a first connection that succeeds and a second one made while the
    database is unreachable. *)
Lemma connectDB_idempotent_witness :
  fst (Db.connectDB Samples.all_ok (ServerJs.boot Samples.db_env []))
    = Ok true /\
  fst (Db.connectDB Samples.unreachable
         (snd (Db.connectDB Samples.all_ok
                 (ServerJs.boot Samples.db_env [])))) = Ok true.
Proof.
  split; [reflexivity|].
  rewrite (proj1 (connectDB_idempotent Samples.all_ok Samples.unreachable
                    (ServerJs.boot Samples.db_env []) eq_refl)).
  reflexivity.
Defined.

(* ===================================================================== *)
(** ** More on the OAuth callback *)
(* ===================================================================== *)

(** Also: a callback without [code] (missing or empty) is answered with
    status 400 by all three entry points; nothing is sent to the provider
    and the state stays as it was. *)
Theorem callback_without_code (x : Ext) (req : Request) (w : World) :
  opt_truthy (q_code req) = false ->
  (ServerJs.oauth_callback x req w
     = (Ok (mkResp 400 (Text "No code query parameter present.")), w)) /\
  (Part000.oauth_callback x req w
     = (Ok (mkResp 400 (Text "No ?code provided.")), w)) /\
  (Part001.oauth_callback x req w
     = (Ok (mkResp 400 (Text "No 'code' received.")), w)).
Proof.
  intros Hc.
  unfold ServerJs.oauth_callback, Part000.oauth_callback,
    Part001.oauth_callback.
  rewrite Hc. repeat split.
Qed.

(** The same at a request that carries a board id but no code. *)
Lemma callback_without_code_witness :
  opt_truthy (q_code (Samples.board_req "1")) = false /\
  snd (ServerJs.oauth_callback Samples.all_ok (Samples.board_req "1")
         Samples.connected) = Samples.connected.
Proof.
  split; [reflexivity|].
  rewrite (proj1 (callback_without_code Samples.all_ok
                    (Samples.board_req "1") Samples.connected eq_refl)).
  reflexivity.
Defined.

(** X7: the exchange is fire-once: a callback with a code sends exactly one
    request to the token endpoint, carrying that code, the configured
    client id, secret and redirect address and the grant type
    [authorization_code], whatever the provider and the database answer;
    no other provider call is made. *)
Theorem callback_sends_one_token_request
    (x : Ext) (req : Request) (w : World) (code : string) :
  q_code req = Some code ->
  code <> "" ->
  sent (snd (ServerJs.oauth_callback x req w))
    = TokenPost code (CLIENT_ID (env w)) (CLIENT_SECRET (env w))
        (REDIRECT_URL (env w)) "authorization_code" :: sent w.
Proof.
  intros Hq Hc. apply str_truthy_true in Hc.
  unfold ServerJs.oauth_callback, post_token, MondayLib.setToken,
    Db.saveToken.
  unfold_monad. rewrite Hq. cbn [opt_truthy default id]. rewrite Hc.
  cbn [negb].
  destruct w as [mat ot e dbf tk snt lis ex ix].
  destruct (token_endpoint x) as [[d|]|]; cbn; [|reflexivity..].
  destruct (opt_truthy (td_access_token d)); cbn; [|reflexivity].
  destruct dbf; cbn; [|reflexivity].
  destruct (db_write_ok x); reflexivity.
Qed.

(** X7 at a callback whose token request is rejected. *)
Lemma callback_sends_one_token_request_witness :
  q_code Samples.callback_req = Some "code-1" /\
  sent (snd (ServerJs.oauth_callback Samples.unreachable
               Samples.callback_req Samples.connected))
    = [TokenPost "code-1" "" ""
         "http://localhost:3000/monday/oauth/callback"
         "authorization_code"].
Proof.
  split; [reflexivity|].
  rewrite (callback_sends_one_token_request Samples.unreachable
             Samples.callback_req Samples.connected "code-1" eq_refl
             ltac:(discriminate)).
  reflexivity.
Defined.

(** X8 at a token request that is rejected. *)
Lemma oauth_transport_failure_witness :
  opt_truthy (q_code Samples.callback_req) = true /\
  token_endpoint Samples.unreachable = None /\
  fst (ServerJs.oauth_callback Samples.unreachable Samples.callback_req
         Samples.connected)
    = Ok (mkResp 500 (Text "OAuth token exchange failed. See server logs.")).
Proof.
  split; [reflexivity | split; [reflexivity|]].
  exact (proj1 (oauth_transport_failure Samples.unreachable
                  Samples.callback_req Samples.connected eq_refl eq_refl)).
Defined.

(** X10: after a granted exchange on a connected store whose write
    succeeds, the collection holds for "monday" exactly the granted
    credential: the access token, the refresh token and expiry of this
    answer (absent when the answer has none or a zero lifetime; the expiry
    instant being within the range of a [Date]), and a later [getToken]
    returns the access token. The library's token is the granted one as
    well. *)
Theorem callback_persists_credential
    (x x' : Ext) (req : Request) (w : World) (d : TokenData) (t : string) :
  opt_truthy (q_code req) = true ->
  token_endpoint x = Some (Some d) ->
  td_access_token d = Some t ->
  t <> "" ->
  db w = true ->
  db_write_ok x = true ->
  (forall n, td_expires_in d = Some n ->
     -8640000000000000 <= date_now x + n * 1000 <= 8640000000000000) ->
  Db.findOne "monday" (tokens (snd (ServerJs.oauth_callback x req w)))
    = Some (mkDoc "monday" t
              (str_or_null (td_refresh_token d))
              (if num_truthy (td_expires_in d)
               then Some (At (date_now x
                              + default 0 (td_expires_in d) * 1000))
               else None)
              (date_new x)) /\
  oauthToken (snd (ServerJs.oauth_callback x req w)) = t /\
  (db_read_ok x' = true ->
   fst (Db.getToken x' "monday" (snd (ServerJs.oauth_callback x req w)))
     = Ok (Some t)).
Proof.
  intros Hc Hx Hd Ht Hdb Hw Hrange. apply str_truthy_true in Ht.
  unfold ServerJs.oauth_callback, post_token, MondayLib.setToken,
    Db.saveToken, Db.getToken.
  unfold_monad. rewrite Hc, Hx. cbn [negb].
  destruct w as [mat ot e dbf tk snt lis ex ix]. cbn in Hdb. subst dbf.
  cbn. rewrite Hd. cbn. rewrite Ht, Hw. cbn.
  assert (He : (if num_truthy (num_or_null (td_expires_in d))
                then Some (new_Date
                             (date_now x
                              + default 0 (num_or_null (td_expires_in d))
                                * 1000))
                else None)
               = (if num_truthy (td_expires_in d)
                  then Some (At (date_now x
                                 + default 0 (td_expires_in d) * 1000))
                  else None)).
  { unfold num_or_null.
    destruct (num_truthy (td_expires_in d)) eqn:En; [rewrite En|reflexivity].
    destruct (td_expires_in d) as [n|]; [|discriminate].
    destruct (Hrange n eq_refl) as [Hlo Hhi].
    apply Z.leb_le in Hlo, Hhi. unfold new_Date. cbn [default id].
    now rewrite Hlo, Hhi. }
  rewrite He.
  match goal with
  | |- find _ (Db.updateOne _ ?doc _) = _ /\ _ =>
      pose proof (findOne_updateOne "monday" doc tk eq_refl) as Hf
  end.
  unfold Db.findOne in Hf. rewrite Hf.
  repeat split. intros ->. cbn. unfold str_or_null. cbn. now rewrite Ht.
Qed.

(** X10 at a grant of tok123 with a refresh token and one hour of life. *)
Lemma callback_persists_credential_witness :
  opt_truthy (q_code Samples.callback_req) = true /\
  db Samples.connected = true /\
  db_write_ok Samples.all_ok = true /\
  -8640000000000000 <= date_now Samples.all_ok + 3600 * 1000
    <= 8640000000000000 /\
  Db.findOne "monday"
    (tokens (snd (ServerJs.oauth_callback Samples.all_ok
                    Samples.callback_req Samples.connected)))
    = Some (mkDoc "monday" "tok123" (Some "ref1")
              (Some (At (1700000000000 + 3600 * 1000))) 1700000000001).
Proof.
  assert (Hr : -8640000000000000 <= date_now Samples.all_ok + 3600 * 1000
               <= 8640000000000000) by (vm_compute; split; discriminate).
  split; [reflexivity | split; [reflexivity | split; [reflexivity |
    split; [exact Hr|]]]].
  refine (proj1 (callback_persists_credential Samples.all_ok Samples.all_ok
                   Samples.callback_req Samples.connected
                   (mkTokenData (Some "tok123") (Some "ref1") (Some 3600))
                   "tok123" eq_refl eq_refl eq_refl ltac:(discriminate)
                   eq_refl eq_refl _)).
  intros n [= <-]. exact Hr.
Defined.

(** X11: the credential survives a restart: after a granted exchange whose
    database write succeeded, a fresh part_000 process on the database the
    exchange left (its collection and index), which is configured for the
    database, reaches it, reads the collection and whose [app.listen] does
    not throw, listens with the in-process variable, the library and the
    environment setting all holding the granted token. *)
Theorem token_survives_restart
    (x x' : Ext) (req : Request) (w : World) (d : TokenData) (t : string)
    (e : gmap string string) :
  opt_truthy (q_code req) = true ->
  token_endpoint x = Some (Some d) ->
  td_access_token d = Some t ->
  t <> "" ->
  db w = true ->
  db_write_ok x = true ->
  opt_truthy (e !! "MONGODB_URI") = true ->
  db_connect_ok x' = true ->
  db_read_ok x' = true ->
  listen_ok x' = true ->
  let left := snd (Part000.oauth_callback x req w) in
  let fresh :=
    set_service_index (service_index left)
      (Part000.boot e (tokens left)) in
  let w' := snd (Part000.start x' fresh) in
  listening w' = true /\ exit_code w' = None /\
  mondayAccessToken w' = t /\ oauthToken w' = t /\
  env w' !! "MONDAY_ACCESS_TOKEN" = Some t.
Proof.
  intros Hc Hx Hd Ht Hdb Hw Hu Hco Hr Hl left fresh w'.
  assert (Hs : exists doc, Db.findOne "monday" (tokens left) = Some doc /\
                           access_token doc = t).
  { subst left.
    unfold Part000.oauth_callback, post_token, MondayLib.setToken,
      Db.saveToken.
    unfold_monad. rewrite Hc, Hx. cbn [negb].
    destruct w as [mat ot e0 dbf tk snt lis ex ix]. cbn in Hdb. subst dbf.
    cbn. rewrite Hd. cbn. apply str_truthy_true in Ht. rewrite Ht, Hw. cbn.
    match goal with
    | |- exists _, find _ (Db.updateOne _ ?doc _) = _ /\ _ =>
        pose proof (findOne_updateOne "monday" doc tk eq_refl) as Hf;
        exists doc
    end.
    unfold Db.findOne in Hf. split; [exact Hf | reflexivity]. }
  destruct Hs as (doc & Hs & Hdoc).
  subst w' fresh. generalize dependent left. intros left Hs.
  unfold Part000.start, Part000.boot, Db.connectDB, Db.getToken,
    MondayLib.setToken, listen.
  unfold_monad.
  cbn [db env negb set_service_index mondayAccessToken oauthToken tokens
       sent listening exit_code].
  rewrite Hu, Hco, Hl.
  cbn [negb fst snd db set_db set_service_index tokens mondayAccessToken
       oauthToken env sent listening exit_code].
  rewrite Hr, Hs.
  cbn [fmap option_fmap option_map]. rewrite Hdoc. unfold str_or_null.
  apply str_truthy_true in Ht. cbn [opt_truthy]. rewrite Ht.
  cbn [opt_truthy default id]. rewrite Ht.
  cbn [snd mondayAccessToken oauthToken env listening exit_code
       set_listening set_env set_oauthToken set_mondayAccessToken set_db
       set_service_index].
  now rewrite lookup_insert_eq.
Qed.

(** X11 at a grant of tok123 followed by a restart with the database
    address configured. *)
Lemma token_survives_restart_witness :
  opt_truthy (q_code Samples.callback_req) = true /\
  opt_truthy (Samples.db_env !! "MONGODB_URI") = true /\
  listen_ok Samples.all_ok = true /\
  mondayAccessToken
    (snd (Part000.start Samples.all_ok
            (set_service_index
               (service_index
                  (snd (Part000.oauth_callback Samples.all_ok
                          Samples.callback_req Samples.connected)))
               (Part000.boot Samples.db_env
                  (tokens (snd (Part000.oauth_callback Samples.all_ok
                                  Samples.callback_req
                                  Samples.connected)))))))
    = "tok123".
Proof.
  split; [reflexivity | split; [reflexivity | split; [reflexivity|]]].
  exact (proj1 (proj2 (proj2
           (token_survives_restart Samples.all_ok Samples.all_ok
              Samples.callback_req Samples.connected
              (mkTokenData (Some "tok123") (Some "ref1") (Some 3600))
              "tok123" Samples.db_env eq_refl eq_refl eq_refl
              ltac:(discriminate) eq_refl eq_refl eq_refl eq_refl
              eq_refl eq_refl)))).
Defined.

(* ===================================================================== *)
(** ** More on webhook registration *)
(* ===================================================================== *)

Lemma getPublicUrl_run (req : Request) (w : World) :
  exists u, getPublicUrl req w = (Ok u, w).
Proof.
  unfold getPublicUrl. unfold_monad.
  destruct (opt_truthy _ && startsWith _ _); eauto.
Qed.

(** X12: with a board id and a token in the in-process variable,
    src/server/server.js registers from memory: the state changes by
    exactly one GraphQL call whose Authorization header is that token, even
    when the environment or the collection hold another one, and the
    answer is the provider's body with status 200, or status 500 when the
    call is rejected. *)
Theorem registration_from_memory
    (x : Ext) (req : Request) (w : World) (b : string) :
  q_board req = Some b ->
  b <> "" ->
  mondayAccessToken w <> "" ->
  exists u,
    getPublicUrl req w = (Ok u, w) /\
    snd (ServerJs.create_webhook x req w)
      = push_sent
          (GraphQLPost "https://api.monday.com/v2"
             (ServerJs.mutation b
                (strip_trailing_slash u ++ "/webhook/monday"))
             None (mondayAccessToken w)) w /\
    fst (ServerJs.create_webhook x req w)
      = match graphql_endpoint x with
        | Some data => Ok (mkResp 200 (Json data))
        | None =>
            Ok (mkResp 500 (Text "Failed to create webhook. See server logs."))
        end.
Proof.
  intros Hq Hb Hm.
  apply str_truthy_true in Hb. apply str_truthy_true in Hm.
  destruct (getPublicUrl_run req w) as [u Hu]. exists u.
  split; [exact Hu|].
  unfold ServerJs.create_webhook, ServerJs.resolveToken, currentToken,
    post_graphql.
  unfold_monad. rewrite Hq. cbn [opt_truthy default id]. rewrite Hb.
  cbn [negb]. unfold str_or. rewrite Hm. cbn [opt_truthy]. rewrite Hm.
  cbn [negb opt_truthy]. rewrite Hm. cbn [negb]. rewrite Hu.
  cbn [default id].
  destruct (graphql_endpoint x); split; reflexivity.
Qed.

(** X12 at a request for board 123456789 on a process that holds
    tok123. *)
Lemma registration_from_memory_witness :
  q_board (Samples.board_req "123456789") = Some "123456789" /\
  mondayAccessToken Samples.authorized = "tok123" /\
  fst (ServerJs.create_webhook Samples.all_ok
         (Samples.board_req "123456789") Samples.authorized)
    = Ok (mkResp 200 (Json (JObj []))).
Proof.
  split; [reflexivity | split; [reflexivity|]].
  destruct (registration_from_memory Samples.all_ok
              (Samples.board_req "123456789") Samples.authorized
              "123456789" eq_refl ltac:(discriminate) ltac:(discriminate))
    as (u & _ & _ & Hr).
  exact Hr.
Defined.

(** X13: with a token in memory, part_000 and part_001 send the board id
    and the callback address as variables of the constant query: part_000
    the id as the string it received, part_001 the number [parseInt] read
    from it (the double nearest to the leading digits) when that is finite
    and not zero; the address is the public address followed by
    [/webhook/monday]. *)
Theorem registration_variables
    (x : Ext) (req : Request) (w : World) :
  mondayAccessToken w <> "" ->
  exists u,
    getPublicUrl req w = (Ok u, w) /\
    (forall b, q_board req = Some b -> b <> "" ->
       snd (Part000.create_webhook x req w)
         = push_sent
             (GraphQLPost "https://api.monday.com/v2" Part000.mutation
                (Some (JObj [("boardId", JStr b);
                             ("url", JStr (u ++ "/webhook/monday"))]))
                (mondayAccessToken w)) w) /\
    (forall n, parseInt (q_board req) = Num n -> n <> 0 ->
       snd (Part001.create_webhook x req w)
         = push_sent
             (GraphQLPost "https://api.monday.com/v2" Part001.query
                (Some (JObj [("boardId", JNum n);
                             ("url", JStr (u ++ "/webhook/monday"))]))
                (mondayAccessToken w)) w).
Proof.
  intros Hm. apply str_truthy_true in Hm.
  destruct (getPublicUrl_run req w) as [u Hu]. exists u.
  split; [exact Hu|]. split.
  - intros b Hq Hb. apply str_truthy_true in Hb.
    unfold Part000.create_webhook, Part000.resolveToken, currentToken,
      post_graphql.
    unfold_monad. rewrite Hq. cbn [opt_truthy default id]. rewrite Hb.
    cbn [negb]. unfold str_or. rewrite Hm. cbn [opt_truthy]. rewrite Hm.
    cbn [negb opt_truthy]. rewrite Hm. cbn [negb]. rewrite Hu.
    cbn [default id]. destruct (graphql_endpoint x); reflexivity.
  - intros n Hp Hn. apply Z.eqb_neq in Hn.
    unfold Part001.create_webhook, Part001.resolveToken, currentToken,
      post_graphql.
    unfold_monad. rewrite Hp. cbn [number_truthy json_of_number].
    rewrite Hn.
    cbn [negb]. unfold str_or. rewrite Hm. cbn [opt_truthy]. rewrite Hm.
    cbn [negb opt_truthy]. rewrite Hm. cbn [negb]. rewrite Hu.
    cbn [default id]. destruct (graphql_endpoint x); reflexivity.
Qed.

(** X13 at a board id beyond 2^53: part_001 registers the nearest
    double. *)
Lemma registration_variables_witness :
  mondayAccessToken Samples.authorized <> "" /\
  parseInt (q_board (Samples.board_req "12345678901234567890"))
    = Num 12345678901234567168 /\
  sent (snd (Part001.create_webhook Samples.all_ok
               (Samples.board_req "12345678901234567890") Samples.authorized))
    = [GraphQLPost "https://api.monday.com/v2" Part001.query
         (Some (JObj [("boardId", JNum 12345678901234567168);
                      ("url", JStr "https://relay.example/webhook/monday")]))
         "tok123"].
Proof.
  split; [discriminate | split; [reflexivity|]].
  destruct (registration_variables Samples.all_ok
              (Samples.board_req "12345678901234567890") Samples.authorized
              ltac:(discriminate))
    as (u & Hu & _ & H1).
  rewrite (H1 12345678901234567168 eq_refl ltac:(discriminate)).
  injection Hu as <-. reflexivity.
Defined.

(** X14: a registration request without a usable board id is answered with
    status 400 and leaves the state as it was: nothing is sent to the
    provider and no token is cached. For server.js and part_000 that is a
    missing or empty id, for part_001 every id [parseInt] reads as [NaN] or
    as zero. *)
Theorem registration_without_board (x : Ext) (req : Request) (w : World) :
  (opt_truthy (q_board req) = false ->
     ServerJs.create_webhook x req w
       = (Ok (mkResp 400 (Text "Missing ?board=<BOARD_ID> query param.")), w)
     /\
     Part000.create_webhook x req w
       = (Ok (mkResp 400 (Text "Missing ?board=<BOARD_ID>")), w)) /\
  (number_truthy (parseInt (q_board req)) = false ->
     Part001.create_webhook x req w
       = (Ok (mkResp 400 (Text "Missing or invalid board ID.")), w)).
Proof.
  unfold ServerJs.create_webhook, Part000.create_webhook,
    Part001.create_webhook.
  split.
  - intros ->. split; reflexivity.
  - intros ->. reflexivity.
Qed.

(** X14 at a board id that is not a number, sent to part_001. *)
Lemma registration_without_board_witness :
  number_truthy (parseInt (q_board (Samples.board_req "board-7"))) = false /\
  Part001.create_webhook Samples.all_ok (Samples.board_req "board-7")
    Samples.authorized
    = (Ok (mkResp 400 (Text "Missing or invalid board ID.")),
       Samples.authorized).
Proof.
  split; [reflexivity|].
  exact (proj2 (registration_without_board Samples.all_ok
                  (Samples.board_req "board-7") Samples.authorized)
               eq_refl).
Defined.

(** X15: the fall-back to the database fills the cache on first use. With
    a board id, an empty in-process variable, no usable environment setting
    and a stored token [t], the registration call carries [t] as
    Authorization; src/server/server.js then holds [t] in the in-process
    variable and in the library but leaves the environment as it was,
    while part_000 mirrors [t] into the environment too. *)
Theorem registration_fills_cache
    (x : Ext) (req : Request) (w : World) (t : string) :
  opt_truthy (q_board req) = true ->
  mondayAccessToken w = "" ->
  absent (env w !! "MONDAY_ACCESS_TOKEN") ->
  fst (Db.getToken x "monday" w) = Ok (Some t) ->
  (mondayAccessToken (snd (ServerJs.create_webhook x req w)) = t /\
   oauthToken (snd (ServerJs.create_webhook x req w)) = t /\
   env (snd (ServerJs.create_webhook x req w)) = env w /\
   exists q,
     sent (snd (ServerJs.create_webhook x req w))
       = GraphQLPost "https://api.monday.com/v2" q None t :: sent w) /\
  (mondayAccessToken (snd (Part000.create_webhook x req w)) = t /\
   oauthToken (snd (Part000.create_webhook x req w)) = t /\
   env (snd (Part000.create_webhook x req w))
     = <["MONDAY_ACCESS_TOKEN" := t]> (env w) /\
   exists vars,
     sent (snd (Part000.create_webhook x req w))
       = GraphQLPost "https://api.monday.com/v2" Part000.mutation
           (Some vars) t :: sent w).
Proof.
  intros Hb Hm He Hg.
  pose proof (getToken_truthy x "monday" w t Hg) as Ht.
  apply str_truthy_true in Ht.
  pose proof (getToken_state x "monday" w) as Hs.
  unfold absent in He.
  split.
  - unfold ServerJs.create_webhook, ServerJs.resolveToken, currentToken,
      MondayLib.setToken, post_graphql, getPublicUrl.
    unfold_monad. rewrite Hb. cbn [negb]. unfold str_or. rewrite Hm.
    cbn [str_truthy String.eqb negb]. rewrite He. cbn [negb].
    destruct (Db.getToken x "monday" w) as [r1 w1].
    cbn [fst snd] in Hg, Hs. subst r1 w1.
    cbn [opt_truthy default id]. rewrite Ht. cbn [opt_truthy]. rewrite Ht.
    cbn [negb env set_oauthToken set_mondayAccessToken].
    destruct w as [mat ot e dbf tk snt lis ex ix]. cbn.
    destruct (opt_truthy _ && startsWith _ _);
      destruct (graphql_endpoint x); cbn; eauto 10.
  - unfold Part000.create_webhook, Part000.resolveToken, currentToken,
      MondayLib.setToken, post_graphql, getPublicUrl.
    unfold_monad. rewrite Hb. cbn [negb]. unfold str_or. rewrite Hm.
    cbn [str_truthy String.eqb negb]. rewrite He. cbn [negb].
    destruct (Db.getToken x "monday" w) as [r1 w1].
    cbn [fst snd] in Hg, Hs. subst r1 w1.
    cbn [opt_truthy default id]. rewrite Ht. cbn [opt_truthy]. rewrite Ht.
    cbn [negb env set_env set_oauthToken set_mondayAccessToken].
    destruct w as [mat ot e dbf tk snt lis ex ix].
    cbn [mondayAccessToken oauthToken env db tokens sent listening
         exit_code].
    destruct (opt_truthy _ && startsWith _ _);
      destruct (graphql_endpoint x);
      cbn [fst snd mondayAccessToken oauthToken env sent push_sent];
      eauto 10.
Qed.

(** X15 at a freshly connected process whose collection holds tok123. *)
Lemma registration_fills_cache_witness :
  opt_truthy (q_board (Samples.board_req "1")) = true /\
  mondayAccessToken (set_tokens Samples.stored_monday Samples.connected)
    = "" /\
  fst (Db.getToken Samples.all_ok "monday"
         (set_tokens Samples.stored_monday Samples.connected))
    = Ok (Some "tok123") /\
  mondayAccessToken
    (snd (ServerJs.create_webhook Samples.all_ok (Samples.board_req "1")
            (set_tokens Samples.stored_monday Samples.connected)))
    = "tok123".
Proof.
  split; [reflexivity | split; [reflexivity | split; [reflexivity|]]].
  exact (proj1 (proj1
           (registration_fills_cache Samples.all_ok (Samples.board_req "1")
              (set_tokens Samples.stored_monday Samples.connected)
              "tok123" eq_refl eq_refl eq_refl eq_refl))).
Defined.

(* ===================================================================== *)
(** ** More on the receiver and on start-up *)
(* ===================================================================== *)

(** X16: the webhook receivers of the three entry points answer every
    request with status 200, whatever the body, and leave the state as it
    was. *)
Theorem receiver_always_200 (req : Request) (w : World) :
  (status_of (fst (ServerJs.webhook_monday req w)) = Some 200 /\
   snd (ServerJs.webhook_monday req w) = w) /\
  (status_of (fst (Part000.webhook_monday req w)) = Some 200 /\
   snd (Part000.webhook_monday req w) = w) /\
  (status_of (fst (Part001.webhook_monday req w)) = Some 200 /\
   snd (Part001.webhook_monday req w) = w).
Proof.
  split; [split; reflexivity|]. split; [|split; reflexivity].
  unfold Part000.webhook_monday. unfold_monad.
  destruct (body req) as [b|]; [|split; reflexivity].
  destruct (truthy b); [|split; reflexivity].
  destruct (challenge_of b) as [c|]; [|split; reflexivity].
  destruct (truthy c); split; reflexivity.
Qed.

(** X17: [start] either listens or exits, never both: each of the three
    entry points ends either listening, [app.listen] having returned and
    the exit code being untouched, or with exit code 1 and not listening
    any more than before. When it exits for another reason than a throwing
    [app.listen] (the connection or the token read failed), the tokens and
    the environment are as they were. *)
Theorem start_listens_or_exits (x : Ext) (w : World) :
  let outcome (w' : World) :=
    (listen_ok x = true /\ listening w' = true /\
     exit_code w' = exit_code w) \/
    (exit_code w' = Some 1 /\ listening w' = listening w /\
     (listen_ok x = true ->
      mondayAccessToken w' = mondayAccessToken w /\
      oauthToken w' = oauthToken w /\ env w' = env w)) in
  outcome (snd (ServerJs.start x w)) /\
  outcome (snd (Part000.start x w)) /\
  outcome (snd (Part001.start x w)).
Proof.
  cbv zeta.
  unfold ServerJs.start, Part000.start, Part001.start, Db.connectDB,
    Db.getToken, MondayLib.setToken, listen.
  unfold_monad.
  destruct w as [mat ot e dbf tk snt lis ex ix].
  cbn [db env tokens].
  destruct (listen_ok x);
    (destruct dbf; cbn [negb];
     [| destruct (opt_truthy (e !! "MONGODB_URI")); cbn [negb];
        [destruct (db_connect_ok x)|] ]);
    cbn [fst snd db set_db set_service_index tokens negb];
    try (destruct (db_read_ok x));
    cbn [fst snd];
    try (destruct (opt_truthy (str_or_null _)));
    cbn; intuition congruence.
Qed.

(** X18: without a database address the three entry points start in the
    degraded mode: when [app.listen] does not throw, [start] listens and
    changes nothing else, whatever the collection holds and whatever the
    database or the provider would answer. *)
Theorem start_without_database
    (x : Ext) (e : gmap string string) (stored : list TokenDoc) :
  opt_truthy (e !! "MONGODB_URI") = false ->
  listen_ok x = true ->
  snd (ServerJs.start x (ServerJs.boot e stored))
    = set_listening (ServerJs.boot e stored) /\
  snd (Part000.start x (Part000.boot e stored))
    = set_listening (Part000.boot e stored) /\
  snd (Part001.start x (Part001.boot e stored))
    = set_listening (Part001.boot e stored).
Proof.
  intros Hu Hl.
  unfold ServerJs.start, Part000.start, Part001.start, Db.connectDB,
    Db.getToken, ServerJs.boot, Part000.boot, Part001.boot, listen.
  unfold_monad. cbn [db env negb]. rewrite Hu, Hl. cbn. repeat split.
Qed.

(** X18 at an environment that only carries a token. *)
Lemma start_without_database_witness :
  opt_truthy (Samples.token_env !! "MONGODB_URI") = false /\
  listen_ok Samples.all_ok = true /\
  listening (snd (Part000.start Samples.all_ok
                    (Part000.boot Samples.token_env
                       Samples.stored_monday))) = true /\
  mondayAccessToken
    (snd (Part000.start Samples.all_ok
            (Part000.boot Samples.token_env Samples.stored_monday))) = "".
Proof.
  split; [reflexivity | split; [reflexivity|]].
  assert (Hu : opt_truthy (Samples.token_env !! "MONGODB_URI") = false)
    by reflexivity.
  rewrite (proj1 (proj2 (start_without_database Samples.all_ok
                           Samples.token_env Samples.stored_monday Hu
                           eq_refl))).
  split; reflexivity.
Defined.

(** X19 at a configured start that finds tok123 in the collection. *)
Lemma seeding_start_seeds_witness :
  fst (Db.connectDB Samples.all_ok
         (Part000.boot Samples.db_env Samples.stored_monday)) = Ok true /\
  fst (Db.getToken Samples.all_ok "monday"
         (snd (Db.connectDB Samples.all_ok
                 (Part000.boot Samples.db_env Samples.stored_monday))))
    = Ok (Some "tok123") /\
  listen_ok Samples.all_ok = true /\
  oauthToken (snd (Part000.start Samples.all_ok
                     (Part000.boot Samples.db_env Samples.stored_monday)))
    = "tok123".
Proof.
  split; [reflexivity | split; [reflexivity | split; [reflexivity|]]].
  exact (proj1 (proj2 (proj2
           (seeding_start_seeds Samples.all_ok
              (Part000.boot Samples.db_env Samples.stored_monday) "tok123"
              (ex_intro _ true eq_refl) eq_refl eq_refl)))).
Defined.

(* ===================================================================== *)
(** ** The public address and the string helpers *)
(* ===================================================================== *)

Lemma append_slash_cons (s : string) :
  exists c r, s ++ "/" = String c r.
Proof. destruct s; simpl; eauto. Qed.

(** X20: [replace(/\/$/, '')] removes exactly one trailing slash and
    nothing else: a string followed by a slash gives the string back, and a
    string that does not end with a slash is returned as it is. *)
Theorem strip_trailing_slash_spec (s : string) :
  strip_trailing_slash (s ++ "/") = s /\
  (Samples.ends_with_slash s = false -> strip_trailing_slash s = s) /\
  (Samples.ends_with_slash s = true ->
     s = strip_trailing_slash s ++ "/").
Proof.
  split; [|split].
  - induction s as [|c r IH]; [reflexivity|].
    simpl. destruct (append_slash_cons r) as (c' & r' & E).
    rewrite E in *. now rewrite IH.
  - induction s as [|c r IH]; [reflexivity|].
    simpl. destruct r as [|c' r'].
    + now intros ->.
    + intros H. f_equal. now apply IH.
  - induction s as [|c r IH]; [discriminate|].
    destruct r as [|c' r'].
    + simpl. intros H. rewrite H. apply Ascii.eqb_eq in H. now subst c.
    + intros H.
      change (String c (String c' r')
              = String c (strip_trailing_slash (String c' r') ++ "/")).
      f_equal. now apply IH.
Qed.

(** X20 at an address without trailing slash. *)
Lemma strip_trailing_slash_spec_witness :
  Samples.ends_with_slash "https://relay.example" = false /\
  strip_trailing_slash "https://relay.example" = "https://relay.example".
Proof.
  split; [reflexivity|].
  apply (proj1 (proj2 (strip_trailing_slash_spec "https://relay.example"))).
  reflexivity.
Defined.

(** X21: the address set in MONDAY_PUBLIC_URL decides alone: when it
    starts with [http] the public address is that setting without one
    trailing slash, whatever the request says; when it is non-empty but
    does not start with [http] the address is built from the request
    (forwarded protocol first), even if PUBLIC_URL or NGROK_URL hold a
    well-formed address. The state is not changed. *)
Theorem publicUrl_first_setting_decides
    (req : Request) (w : World) (u : string) :
  env w !! "MONDAY_PUBLIC_URL" = Some u ->
  u <> "" ->
  getPublicUrl req w
    = (Ok (if startsWith "http" u then strip_trailing_slash u
           else or_default (x_forwarded_proto req) (protocol req)
                ++ "://" ++ host req), w).
Proof.
  intros He Hu. apply str_truthy_true in Hu.
  unfold getPublicUrl. unfold_monad. rewrite He. unfold opt_or.
  change (opt_truthy (Some u)) with (str_truthy u). rewrite Hu. cbv iota.
  change (opt_truthy (Some u)) with (str_truthy u). rewrite Hu. cbv iota.
  change (opt_truthy (Some u)) with (str_truthy u). rewrite Hu.
  cbn [andb]. destruct (startsWith "http" u) eqn:E;
    change (default "" (Some u)) with u; rewrite E; reflexivity.
Qed.

(** X21 at a first setting without scheme next to a well-formed second
    one. *)
Lemma publicUrl_first_setting_decides_witness :
  env (ServerJs.boot Samples.masked_env []) !! "MONDAY_PUBLIC_URL"
    = Some "relay.example" /\
  env (ServerJs.boot Samples.masked_env []) !! "PUBLIC_URL"
    = Some "https://pub.example" /\
  fst (getPublicUrl (Samples.board_req "1")
         (ServerJs.boot Samples.masked_env []))
    = Ok "https://relay.example".
Proof.
  split; [reflexivity | split; [reflexivity|]].
  assert (He : env (ServerJs.boot Samples.masked_env [])
                 !! "MONDAY_PUBLIC_URL" = Some "relay.example")
    by reflexivity.
  rewrite (publicUrl_first_setting_decides (Samples.board_req "1")
             (ServerJs.boot Samples.masked_env []) "relay.example" He
             ltac:(discriminate)).
  reflexivity.
Defined.

(** Also: without any of the three address settings the public address is
    [proto://host] of the request, the protocol taken from
    [x-forwarded-proto] when that header is non-empty and from the
    connection otherwise. *)
Theorem publicUrl_from_request (req : Request) (w : World) :
  absent (env w !! "MONDAY_PUBLIC_URL") ->
  absent (env w !! "PUBLIC_URL") ->
  absent (env w !! "NGROK_URL") ->
  getPublicUrl req w
    = (Ok (match x_forwarded_proto req with
           | Some p => if String.eqb p "" then protocol req else p
           | None => protocol req
           end ++ "://" ++ host req), w).
Proof.
  unfold absent. intros H1 H2 H3.
  unfold getPublicUrl. unfold_monad. unfold opt_or.
  rewrite H1, H2, H3. cbn [andb]. unfold or_default, str_truthy.
  destruct (x_forwarded_proto req) as [p|]; [|reflexivity].
  now destruct (String.eqb p "").
Qed.

(** The same at a request that came through a proxy terminating TLS. *)
Lemma publicUrl_from_request_witness :
  absent (env (ServerJs.boot ∅ []) !! "MONDAY_PUBLIC_URL") /\
  fst (getPublicUrl
         (mkReq None None (Some "https") "http" "relay.example" None)
         (ServerJs.boot ∅ []))
    = Ok "https://relay.example".
Proof.
  assert (H1 : absent (env (ServerJs.boot ∅ []) !! "MONDAY_PUBLIC_URL"))
    by reflexivity.
  assert (H2 : absent (env (ServerJs.boot ∅ []) !! "PUBLIC_URL"))
    by reflexivity.
  assert (H3 : absent (env (ServerJs.boot ∅ []) !! "NGROK_URL"))
    by reflexivity.
  split; [exact H1|].
  rewrite (publicUrl_from_request
             (mkReq None None (Some "https") "http" "relay.example" None)
             (ServerJs.boot ∅ []) H1 H2 H3).
  reflexivity.
Defined.

Lemma digit_not_space_or_sign (c : ascii) :
  Samples.is_digit c = true ->
  (forall r, skip_spaces (String c r) = String c r) /\
  Ascii.eqb c "-" = false /\ Ascii.eqb c "+" = false.
Proof.
  destruct c as [[] [] [] [] [] [] [] []]; try discriminate;
    intros _; (split; [|split; reflexivity]);
    intros [|c2 [|c3 r3]]; reflexivity.
Qed.

Lemma round_double_not_NaN (a : Z) : round_double a <> NaN.
Proof.
  unfold round_double. destruct (a <? 2 ^ 53); [discriminate|].
  cbv zeta.
  match goal with |- (if ?b then _ else _) <> _ => destruct b end;
    discriminate.
Qed.

Lemma digits_Some (a : Z) (s : string) : is_Some (digits (Some a) s).
Proof.
  revert a. induction s as [|c r IH]; intros a; cbn [digits].
  - eexists. reflexivity.
  - destruct (digit_of c); [apply IH|]. eexists. reflexivity.
Qed.

Lemma number_of_digits_not_NaN (a : Z) (s : string) :
  number_of_digits (digits (Some a) s) <> NaN.
Proof.
  destruct (digits_Some a s) as [n ->]. apply round_double_not_NaN.
Qed.

Lemma digits_ignores_tail (ds tail : string) (acc : option Z) :
  OAuthStart.all_chars Samples.is_digit ds = true ->
  match tail with
  | String c _ => Samples.is_digit c = false
  | EmptyString => True
  end ->
  digits acc (ds ++ tail) = digits acc ds.
Proof.
  intros Hd Ht. revert acc. induction ds as [|c r IH]; intros acc.
  - simpl. destruct tail as [|c t]; [reflexivity|].
    simpl. unfold Samples.is_digit in Ht. now destruct (digit_of c).
  - simpl in Hd. apply andb_true_iff in Hd as [Hc Hr]. simpl.
    destruct (digit_of c); [now apply IH | reflexivity].
Qed.

(** X22: [parseInt(s, 10)] reads the leading digits and ignores whatever
    follows them: for a non-empty digit string followed by text that does
    not start with a digit the result is that of the digit string alone,
    and it is a number, not [NaN]. part_001 therefore handles a board id
    such as [12abc] as it handles [12]. *)
Theorem parseInt_ignores_tail (c : ascii) (ds tail : string) :
  OAuthStart.all_chars Samples.is_digit (String c ds) = true ->
  match tail with
  | String c' _ => Samples.is_digit c' = false
  | EmptyString => True
  end ->
  parseInt (Some (String c ds ++ tail)) = parseInt (Some (String c ds)) /\
  parseInt (Some (String c ds)) <> NaN /\
  forall x req w,
    Part001.create_webhook x (Samples.with_board (String c ds ++ tail) req) w
      = Part001.create_webhook x (Samples.with_board (String c ds) req) w.
Proof.
  intros Hd Ht.
  pose proof Hd as Hd'. simpl in Hd'.
  apply andb_true_iff in Hd' as [Hc _].
  destruct (digit_not_space_or_sign c Hc) as (Hs & Hm & Hpl).
  assert (Hp : parseInt (Some (String c ds ++ tail))
               = parseInt (Some (String c ds))).
  { unfold parseInt.
    change (String c ds ++ tail) with (String c (ds ++ tail)).
    rewrite !Hs, Hm, Hpl.
    change (String c (ds ++ tail)) with (String c ds ++ tail).
    now rewrite digits_ignores_tail. }
  split; [exact Hp|]. split.
  - unfold parseInt. rewrite Hs, Hm, Hpl.
    cbn [digits]. unfold Samples.is_digit in Hc.
    destruct (digit_of c) as [d|]; [|discriminate].
    apply number_of_digits_not_NaN.
  - intros x req w. unfold Part001.create_webhook.
    cbn [Samples.with_board q_board]. rewrite Hp.
    unfold getPublicUrl. reflexivity.
Qed.

(** X22 at the board id [12abc]. *)
Lemma parseInt_ignores_tail_witness :
  OAuthStart.all_chars Samples.is_digit "12" = true /\
  parseInt (Some "12abc") = Num 12.
Proof.
  split; [reflexivity|].
  exact (eq_trans
           (proj1 (parseInt_ignores_tail "1" "2" "abc" eq_refl eq_refl))
           eq_refl).
Defined.

(* ===================================================================== *)
(** ** The consent redirect *)
(* ===================================================================== *)

Lemma hex_digit_lt_inj (a b : nat) :
  (a < 16)%nat -> (b < 16)%nat ->
  OAuthStart.hex_digit a = OAuthStart.hex_digit b -> a = b.
Proof.
  intros Ha Hb.
  do 16 (destruct a as [|a]; [do 16 (destruct b as [|b];
      [first [reflexivity | discriminate]|]); lia|]).
  lia.
Qed.

Lemma hex_digit_component (a : nat) :
  (a < 16)%nat ->
  OAuthStart.component_char (OAuthStart.hex_digit a) = true.
Proof.
  intros Ha. do 16 (destruct a as [|a]; [reflexivity|]). lia.
Qed.

Lemma nat_of_ascii_lt (c : ascii) : (nat_of_ascii c < 256)%nat.
Proof. destruct c as [[] [] [] [] [] [] [] []]; vm_compute; lia. Qed.

(** X23: [encodeURIComponent] yields only unreserved characters and
    percent signs, so the encoded redirect address can hold no [&], [=],
    [?], [#], [/] or [:]; a string made of unreserved characters only is
    left as it is. *)
Theorem encodeURIComponent_safe (s : string) :
  OAuthStart.all_chars OAuthStart.component_char
    (OAuthStart.encodeURIComponent s) = true /\
  (OAuthStart.all_chars OAuthStart.unreserved s = true ->
   OAuthStart.encodeURIComponent s = s).
Proof.
  split.
  - induction s as [|c r IH]; [reflexivity|].
    cbn [OAuthStart.encodeURIComponent].
    destruct (OAuthStart.unreserved c) eqn:E; cbn [OAuthStart.all_chars].
    + unfold OAuthStart.component_char at 1. now rewrite E, IH.
    + rewrite IH, !hex_digit_component; [reflexivity| |].
      * apply Nat.mod_upper_bound. discriminate.
      * apply Nat.Div0.div_lt_upper_bound. apply nat_of_ascii_lt.
  - induction s as [|c r IH]; [reflexivity|].
    simpl. intros H. apply andb_true_iff in H as [Hc Hr].
    now rewrite Hc, IH.
Qed.

(** X23 at a client-chosen state value made of unreserved characters. *)
Lemma encodeURIComponent_safe_witness :
  OAuthStart.all_chars OAuthStart.unreserved "relay_v1.2-test" = true /\
  OAuthStart.encodeURIComponent "relay_v1.2-test" = "relay_v1.2-test".
Proof.
  split; [reflexivity|].
  exact (proj2 (encodeURIComponent_safe "relay_v1.2-test") eq_refl).
Defined.

(** X24: [encodeURIComponent] loses nothing: two strings with the same
    encoding are the same string. *)
Theorem encodeURIComponent_injective (s1 s2 : string) :
  OAuthStart.encodeURIComponent s1 = OAuthStart.encodeURIComponent s2 ->
  s1 = s2.
Proof.
  revert s2. induction s1 as [|c1 r1 IH]; intros [|c2 r2];
    cbn [OAuthStart.encodeURIComponent].
  - reflexivity.
  - destruct (OAuthStart.unreserved c2); discriminate.
  - destruct (OAuthStart.unreserved c1); discriminate.
  - destruct (OAuthStart.unreserved c1) eqn:E1,
             (OAuthStart.unreserved c2) eqn:E2.
    + intros [= -> H]. f_equal. now apply IH.
    + intros [= -> _]. discriminate.
    + intros [= <- _]. discriminate.
    + intros [= Hd Hm H]. f_equal; [|now apply IH].
      change (OAuthStart.hex_digit (Nat.div (nat_of_ascii c1) 16)
              = OAuthStart.hex_digit (Nat.div (nat_of_ascii c2) 16)) in Hd.
      change (OAuthStart.hex_digit (Nat.modulo (nat_of_ascii c1) 16)
              = OAuthStart.hex_digit (Nat.modulo (nat_of_ascii c2) 16))
        in Hm.
      apply hex_digit_lt_inj in Hd;
        [| apply Nat.Div0.div_lt_upper_bound; apply nat_of_ascii_lt
         | apply Nat.Div0.div_lt_upper_bound; apply nat_of_ascii_lt ].
      apply hex_digit_lt_inj in Hm;
        [| apply Nat.mod_upper_bound; discriminate
         | apply Nat.mod_upper_bound; discriminate ].
      rewrite <- (ascii_nat_embedding c1), <- (ascii_nat_embedding c2).
      f_equal.
      rewrite (Nat.div_mod_eq (nat_of_ascii c1) 16),
              (Nat.div_mod_eq (nat_of_ascii c2) 16).
      now rewrite Hd, Hm.
Qed.

(** X24 at the default redirect address. *)
Lemma encodeURIComponent_injective_witness :
  OAuthStart.encodeURIComponent "http://localhost:3000/monday/oauth/callback"
    = "http%3A%2F%2Flocalhost%3A3000%2Fmonday%2Foauth%2Fcallback" /\
  OAuthStart.encodeURIComponent "a&b=c"
    = OAuthStart.encodeURIComponent "a&b=c" /\
  "a&b=c" = "a&b=c".
Proof.
  split; [reflexivity | split; [reflexivity|]].
  exact (encodeURIComponent_injective "a&b=c" "a&b=c" eq_refl).
Defined.

(** X25: the consent endpoint of each entry point redirects exactly when a
    client id is configured: without one it answers with a plain text and
    status 200; with one it answers 302, the location being the provider's
    authorize address with the client id as configured and the encoded
    redirect address. The state is never changed. *)
Theorem consent_redirect (req : Request) (w : World) :
  (absent (env w !! "MONDAY_CLIENT_ID") ->
     OAuthStart.oauth_start req w
       = (Ok (mkResp 200 (Text "MONDAY_CLIENT_ID is not configured in .env. Add it and restart the server.")), w) /\
     OAuthStart.oauth_start_000 req w
       = (Ok (mkResp 200 (Text "MONDAY_CLIENT_ID missing.")), w) /\
     OAuthStart.oauth_start_001 req w
       = (Ok (mkResp 200 (Text "MONDAY_CLIENT_ID missing in .env or Render env.")), w)) /\
  (forall id, env w !! "MONDAY_CLIENT_ID" = Some id -> id <> "" ->
     let location :=
       "https://auth.monday.com/oauth2/authorize?client_id=" ++ id
       ++ "&redirect_uri="
       ++ OAuthStart.encodeURIComponent (REDIRECT_URL (env w)) in
     OAuthStart.oauth_start req w = (Ok (mkResp 302 (Redirect location)), w)
     /\
     OAuthStart.oauth_start_000 req w
       = (Ok (mkResp 302 (Redirect location)), w) /\
     OAuthStart.oauth_start_001 req w
       = (Ok (mkResp 302 (Redirect location)), w)).
Proof.
  unfold OAuthStart.oauth_start, OAuthStart.oauth_start_000,
    OAuthStart.oauth_start_001, OAuthStart.authUrl, CLIENT_ID, absent.
  unfold_monad. split.
  - intros Ha. unfold or_default.
    destruct (env w !! "MONDAY_CLIENT_ID") as [id|]; [|repeat split].
    cbn [opt_truthy] in Ha. rewrite Ha. repeat split.
  - intros id -> Hid. apply str_truthy_true in Hid.
    unfold or_default. rewrite Hid. cbn [negb]. rewrite Hid.
    repeat split.
Qed.

(** X25 at a process with the client id client-42 and the default redirect
    address. *)
Lemma consent_redirect_witness :
  env (ServerJs.boot Samples.client_env []) !! "MONDAY_CLIENT_ID"
    = Some "client-42" /\
  fst (OAuthStart.oauth_start Samples.callback_req
         (ServerJs.boot Samples.client_env []))
    = Ok (mkResp 302 (Redirect "https://auth.monday.com/oauth2/authorize?client_id=client-42&redirect_uri=http%3A%2F%2Flocalhost%3A3000%2Fmonday%2Foauth%2Fcallback")).
Proof.
  assert (He : env (ServerJs.boot Samples.client_env [])
                 !! "MONDAY_CLIENT_ID" = Some "client-42") by reflexivity.
  split; [exact He|].
  rewrite (proj1 (proj2 (consent_redirect Samples.callback_req
                           (ServerJs.boot Samples.client_env []))
                   "client-42" He ltac:(discriminate))).
  reflexivity.
Defined.

(* ===================================================================== *)
(** ** Queries of the library *)
(* ===================================================================== *)

(** Also: [runQuery] never talks to the provider without a token: with an
    empty library token it throws and the state, the trace of calls
    included, is as before. *)
Theorem runQuery_needs_token
    (x : Ext) (query : string) (variables : json) (w : World) :
  oauthToken w = "" ->
  MondayApi.runQuery x query variables w
    = (Throw "Missing monday OAuth token. Call setToken(token) first.", w).
Proof.
  intros Ht. unfold MondayApi.runQuery. unfold_monad. now rewrite Ht.
Qed.

(** The same at a process that never received a token. *)
Lemma runQuery_needs_token_witness :
  oauthToken Samples.connected = "" /\
  sent (snd (MondayApi.runQuery Samples.all_ok "{ me { id } }" (JObj [])
               Samples.connected)) = [].
Proof.
  split; [reflexivity|].
  rewrite (runQuery_needs_token Samples.all_ok "{ me { id } }" (JObj [])
             Samples.connected eq_refl).
  reflexivity.
Defined.

(** X26: with a library token, [runQuery] makes exactly one call to the
    provider, with the query and variables it was given and the token as
    Authorization, and changes nothing else; whenever it returns, the value
    is the provider's answer itself, which is not [null] and has no truthy
    [errors] field. *)
Theorem runQuery_returns_clean_answer
    (x : Ext) (query : string) (variables : json) (w : World) :
  oauthToken w <> "" ->
  snd (MondayApi.runQuery x query variables w)
    = push_sent (GraphQLPost "https://api.monday.com/v2" query
                   (Some variables) (oauthToken w)) w /\
  forall j,
    fst (MondayApi.runQuery x query variables w) = Ok j ->
    graphql_endpoint x = Some j /\ j <> JNull /\
    MondayApi.opt_json_truthy (MondayApi.member "errors" j) = false.
Proof.
  intros Ht. apply str_truthy_true in Ht.
  unfold MondayApi.runQuery. unfold_monad. rewrite Ht. cbn [negb].
  destruct (graphql_endpoint x) as [j|]; [|split; [reflexivity|]].
  - destruct j; cbn [fst snd];
      try (destruct (MondayApi.opt_json_truthy _) eqn:E; cbn [fst snd]);
      (split; [reflexivity|]); intros j' [= <-];
      repeat split; try discriminate; exact E.
  - intros j [=].
Qed.

(** X26 at an answer that reports errors. *)
Lemma runQuery_returns_clean_answer_witness :
  oauthToken Samples.authorized_lib <> "" /\
  sent (snd (MondayApi.runQuery
               (Samples.answers (JObj [("errors", JArr [JStr "bad"])]))
               "{ me { id } }" (JObj []) Samples.authorized_lib))
    = [GraphQLPost "https://api.monday.com/v2" "{ me { id } }"
         (Some (JObj [])) "tok123"] /\
  fst (MondayApi.runQuery
         (Samples.answers (JObj [("errors", JArr [JStr "bad"])]))
         "{ me { id } }" (JObj []) Samples.authorized_lib)
    = Throw "Monday API error: ".
Proof.
  split; [discriminate|].
  rewrite (proj1 (runQuery_returns_clean_answer
                    (Samples.answers (JObj [("errors", JArr [JStr "bad"])]))
                    "{ me { id } }" (JObj []) Samples.authorized_lib
                    ltac:(discriminate))).
  split; reflexivity.
Defined.

Lemma first_item_truthy (res : json) : truthy (MondayApi.first_item res) = true.
Proof.
  unfold MondayApi.first_item.
  destruct (MondayApi.opt_json_truthy _) eqn:E; [|reflexivity].
  destruct (if MondayApi.nullish _ then None else _) as [v|];
    [exact E | discriminate].
Qed.

Lemma status_column_truthy (item col : json) :
  MondayApi.status_column item = Ok col -> truthy col = true.
Proof.
  unfold MondayApi.status_column.
  destruct (MondayApi.nullish _); [now intros [= <-]|].
  destruct (MondayApi.member "column_values" item) as [[]|];
    try discriminate.
  destruct (MondayApi.find_status items) as [found|]; [|discriminate].
  intros [= <-].
  destruct (MondayApi.opt_json_truthy found) eqn:E; [|reflexivity].
  destruct found; [exact E | discriminate].
Qed.

Lemma find_status_first (l : list json) (c : json) :
  MondayApi.find_status l = Ok (Some c) ->
  exists pre post,
    l = (pre ++ c :: post)%list /\
    MondayApi.member "id" c = Some (JStr "status") /\
    forall c', In c' pre ->
      MondayApi.member "id" c' <> Some (JStr "status").
Proof.
  induction l as [|h rest IH]; [discriminate|].
  intros H.
  assert (Hrec : MondayApi.find_status rest = Ok (Some c) ->
                 MondayApi.member "id" h <> Some (JStr "status") ->
                 exists pre post,
                   (h :: rest = pre ++ c :: post)%list /\
                   MondayApi.member "id" c = Some (JStr "status") /\
                   forall c', In c' pre ->
                     MondayApi.member "id" c' <> Some (JStr "status")).
  { intros Hr Hh. destruct (IH Hr) as (pre & post & -> & Hid & Hpre).
    exists (h :: pre), post. split; [reflexivity|]. split; [exact Hid|].
    intros c' [<- | Hin]; [exact Hh | now apply Hpre]. }
  destruct h; cbn [MondayApi.find_status] in H; try discriminate;
    try (apply Hrec; [exact H | discriminate]).
  destruct (MondayApi.member "id" (JObj fields)) as [[]|] eqn:Em;
    try (apply Hrec; [exact H | discriminate]).
  destruct (String.eqb s "status") eqn:Es.
  - injection H as <-. apply String.eqb_eq in Es. subst s.
    exists [], rest. split; [reflexivity|]. split; [exact Em|].
    intros c' [].
  - apply Hrec; [exact H|]. intros [= ->]. now rewrite String.eqb_refl in Es.
Qed.

(** X27: whenever [fetchItem] returns, exactly one query went out, with
    the constant query text and, as its only variable, the item id as
    [parseInt] read it ([null] when that is not a finite number). The
    returned [raw] is the first item of the provider's answer or the empty
    object, a truthy value; [id], [name] and [url] are its properties; and
    [status_text] is either [Unknown] or the truthy [text] of the first
    element of the item's [column_values] whose [id] is [status]. *)
Theorem fetchItem_result
    (x : Ext) (itemId : string) (w : World) (item : MondayApi.Item) :
  fst (MondayApi.fetchItem x itemId w) = Ok item ->
  snd (MondayApi.fetchItem x itemId w)
    = push_sent
        (GraphQLPost "https://api.monday.com/v2" MondayApi.item_query
           (Some (JObj [("itemId",
                         json_of_number (MondayApi.parseIntAuto itemId))]))
           (oauthToken w)) w /\
  exists res,
    graphql_endpoint x = Some res /\
    MondayApi.raw item = MondayApi.first_item res /\
    truthy (MondayApi.raw item) = true /\
    MondayApi.item_id item = MondayApi.member "id" (MondayApi.raw item) /\
    MondayApi.item_name item
      = MondayApi.member "name" (MondayApi.raw item) /\
    MondayApi.item_url item = MondayApi.member "url" (MondayApi.raw item) /\
    (MondayApi.status_text item = JStr "Unknown" \/
     (truthy (MondayApi.status_text item) = true /\
      exists pre col post,
        MondayApi.member "column_values" (MondayApi.raw item)
          = Some (JArr (pre ++ col :: post)) /\
        MondayApi.member "id" col = Some (JStr "status") /\
        (forall c, In c pre ->
           MondayApi.member "id" c <> Some (JStr "status")) /\
        MondayApi.member "text" col
          = Some (MondayApi.status_text item))).
Proof.
  unfold MondayApi.fetchItem.
  unfold bind.
  destruct (MondayApi.runQuery x MondayApi.item_query _ w) as [[res|e] w1]
    eqn:Er; [|discriminate].
  assert (Hw : w1 = push_sent
                 (GraphQLPost "https://api.monday.com/v2"
                    MondayApi.item_query
                    (Some (JObj [("itemId",
                                  json_of_number
                                    (MondayApi.parseIntAuto itemId))]))
                    (oauthToken w)) w /\
               graphql_endpoint x = Some res).
  { revert Er. unfold MondayApi.runQuery. unfold_monad.
    destruct (str_truthy (oauthToken w)); cbn [negb]; [|discriminate].
    destruct (graphql_endpoint x) as [[]|]; try discriminate;
      try (destruct (MondayApi.opt_json_truthy _); try discriminate);
      now intros [= <- <-]. }
  destruct Hw as [Hw Hres].
  destruct (MondayApi.status_column (MondayApi.first_item res))
    as [col|e] eqn:Ec; [|discriminate].
  unfold ret. cbn [fst snd]. intros [= <-].
  cbn [MondayApi.status_text MondayApi.raw MondayApi.item_id
       MondayApi.item_name MondayApi.item_url].
  split; [exact Hw|]. exists res.
  split; [exact Hres|]. split; [reflexivity|].
  split; [apply first_item_truthy|]. do 3 (split; [reflexivity|]).
  destruct (MondayApi.opt_json_truthy (MondayApi.member "text" col)) eqn:E;
    [right | now left].
  destruct (MondayApi.member "text" col) as [txt|] eqn:Et; [|discriminate].
  cbn [default id]. split; [exact E|].
  revert Ec. unfold MondayApi.status_column.
  destruct (MondayApi.nullish _);
    [intros [= <-]; discriminate Et|].
  destruct (MondayApi.member "column_values" (MondayApi.first_item res))
    as [[]|]; try discriminate.
  destruct (MondayApi.find_status items) as [[c|]|] eqn:Ef;
    try discriminate; cbn [MondayApi.opt_json_truthy default id].
  - destruct (truthy c); intros [= Heq]; rewrite <- Heq in Et;
      [|discriminate Et].
    destruct (find_status_first _ _ Ef) as (pre & post & -> & Hid & Hpre).
    exists pre, c, post. repeat split; auto.
  - intros [= Heq]. rewrite <- Heq in Et. discriminate Et.
Qed.

(** X27 at an answer with one item whose status column reads Done. *)
Lemma fetchItem_result_witness :
  fst (MondayApi.fetchItem (Samples.answers Samples.item_answer) "77"
         Samples.authorized_lib)
    = Ok (MondayApi.mkItem (Some (JStr "77")) (Some (JStr "Ship it"))
            (JStr "Done") (Some (JStr "https://b.example/77"))
            (MondayApi.first_item Samples.item_answer)) /\
  sent (snd (MondayApi.fetchItem (Samples.answers Samples.item_answer) "77"
               Samples.authorized_lib))
    = [GraphQLPost "https://api.monday.com/v2" MondayApi.item_query
         (Some (JObj [("itemId", JNum 77)])) "tok123"].
Proof.
  assert (H : fst (MondayApi.fetchItem (Samples.answers Samples.item_answer)
                     "77" Samples.authorized_lib)
              = Ok (MondayApi.mkItem (Some (JStr "77"))
                      (Some (JStr "Ship it")) (JStr "Done")
                      (Some (JStr "https://b.example/77"))
                      (MondayApi.first_item Samples.item_answer)))
    by reflexivity.
  split; [exact H|].
  rewrite (proj1 (fetchItem_result _ _ _ _ H)).
  reflexivity.
Defined.

(** Also: an answer without [data] (missing or [null]) and without errors
    makes [fetchItem] return the placeholder item: no id, name or address,
    the status text [Unknown] and the empty object as [raw]. *)
Theorem fetchItem_without_data
    (x : Ext) (itemId : string) (w : World) (j : json) :
  oauthToken w <> "" ->
  graphql_endpoint x = Some j ->
  j <> JNull ->
  MondayApi.opt_json_truthy (MondayApi.member "errors" j) = false ->
  MondayApi.nullish (MondayApi.member "data" j) = true ->
  fst (MondayApi.fetchItem x itemId w)
    = Ok (MondayApi.mkItem None None (JStr "Unknown") None (JObj [])).
Proof.
  intros Ht Hx Hj He Hd. apply str_truthy_true in Ht.
  unfold MondayApi.fetchItem, MondayApi.runQuery. unfold_monad.
  rewrite Ht, Hx. cbn [negb].
  assert (Hf : MondayApi.first_item j = JObj []).
  { unfold MondayApi.first_item. now rewrite Hd. }
  destruct j; try congruence; cbn [fst snd]; rewrite ?He; cbn [fst snd];
    rewrite Hf; reflexivity.
Qed.

(** The same at an empty answer object. *)
Lemma fetchItem_without_data_witness :
  graphql_endpoint (Samples.answers (JObj [])) = Some (JObj []) /\
  fst (MondayApi.fetchItem (Samples.answers (JObj [])) "0x1f"
         Samples.authorized_lib)
    = Ok (MondayApi.mkItem None None (JStr "Unknown") None (JObj [])) /\
  MondayApi.parseIntAuto "0x1f" = Num 31.
Proof.
  split; [reflexivity | split; [|reflexivity]].
  exact (fetchItem_without_data (Samples.answers (JObj [])) "0x1f"
           Samples.authorized_lib (JObj [])
           ltac:(discriminate) eq_refl ltac:(discriminate) eq_refl eq_refl).
Defined.

(** X28: a granted token reaches the library: after a granted exchange,
    whatever the database did, the next [runQuery] carries the granted
    token as Authorization. *)
Theorem granted_token_reaches_library
    (x x2 : Ext) (req : Request) (w : World) (d : TokenData) (t : string)
    (query : string) (variables : json) :
  opt_truthy (q_code req) = true ->
  token_endpoint x = Some (Some d) ->
  td_access_token d = Some t ->
  t <> "" ->
  sent (snd ((ServerJs.oauth_callback x req ;;
              MondayApi.runQuery x2 query variables) w))
    = GraphQLPost "https://api.monday.com/v2" query (Some variables) t
        :: sent (snd (ServerJs.oauth_callback x req w)).
Proof.
  intros Hc Hx Hd Ht. apply str_truthy_true in Ht.
  unfold ServerJs.oauth_callback, post_token, MondayLib.setToken,
    Db.saveToken, MondayApi.runQuery.
  unfold_monad. rewrite Hc, Hx. cbn [negb].
  destruct w as [mat ot e dbf tk snt lis ex ix]. cbn. rewrite Hd. cbn.
  rewrite Ht.
  destruct dbf; cbn; [destruct (db_write_ok x); cbn|]; rewrite Ht; cbn;
    destruct (graphql_endpoint x2) as [[]|]; cbn;
    try (destruct (MondayApi.opt_json_truthy _)); reflexivity.
Qed.

(** X28 at a grant of tok123 whose database write is rejected. *)
Lemma granted_token_reaches_library_witness :
  opt_truthy (q_code Samples.callback_req) = true /\
  sent (snd ((ServerJs.oauth_callback Samples.granted_write_fails
                Samples.callback_req ;;
              MondayApi.runQuery Samples.all_ok "{ me { id } }" (JObj []))
             Samples.connected))
    = [GraphQLPost "https://api.monday.com/v2" "{ me { id } }"
         (Some (JObj [])) "tok123";
       TokenPost "code-1" "" ""
         "http://localhost:3000/monday/oauth/callback"
         "authorization_code"].
Proof.
  split; [reflexivity|].
  rewrite (granted_token_reaches_library Samples.granted_write_fails
             Samples.all_ok Samples.callback_req Samples.connected
             (mkTokenData (Some "tok123") (Some "ref1") (Some 3600))
             "tok123" "{ me { id } }" (JObj [])
             eq_refl eq_refl eq_refl ltac:(discriminate)).
  reflexivity.
Defined.

(* ===================================================================== *)
(** ** The clean-up script *)
(* ===================================================================== *)

(** X29: [deleteOne] by token removes the first document holding the token
    and nothing else: a collection made of documents with other tokens,
    then a holder, then any documents (further holders among them) loses
    exactly that holder, the rest staying in order; a collection without
    holder is unchanged. The service of the document plays no part. *)
Theorem deleteOne_removes_first_holder
    (token : string) (pre post c : list TokenDoc) (d : TokenDoc) :
  ((forall d', In d' pre -> access_token d' <> token) ->
   access_token d = token ->
   Maintenance.deleteOne token (pre ++ d :: post) = (pre ++ post)%list) /\
  ((forall d', In d' c -> access_token d' <> token) ->
   Maintenance.deleteOne token c = c).
Proof.
  split.
  - intros Hpre Hd. induction pre as [|h pre IH]; simpl.
    + apply String.eqb_eq in Hd. now rewrite Hd.
    + assert (Hh : String.eqb (access_token h) token = false).
      { apply String.eqb_neq. apply Hpre. now left. }
      rewrite Hh. f_equal. apply IH. intros d' Hin. apply Hpre. now right.
  - intros Hc. induction c as [|h c IH]; [reflexivity|]. simpl.
    assert (Hh : String.eqb (access_token h) token = false).
    { apply String.eqb_neq. apply Hc. now left. }
    rewrite Hh. f_equal. apply IH. intros d' Hin. apply Hc. now right.
Qed.

(** X29 at a collection with two debugging credentials: the first one
    goes, the second one stays. *)
Lemma deleteOne_removes_first_holder_witness :
  Samples.two_debug_tokens
    = ([mkDoc "monday" "tok123" None None 1]
       ++ mkDoc "probe" "TEST_TOKEN_DEBUG" None None 2
       :: [mkDoc "cliq" "c-tok" None None 3;
           mkDoc "probe2" "TEST_TOKEN_DEBUG" None None 4])%list /\
  Maintenance.deleteOne "TEST_TOKEN_DEBUG" Samples.two_debug_tokens
    = [mkDoc "monday" "tok123" None None 1;
       mkDoc "cliq" "c-tok" None None 3;
       mkDoc "probe2" "TEST_TOKEN_DEBUG" None None 4].
Proof.
  split; [reflexivity|].
  refine (proj1 (deleteOne_removes_first_holder "TEST_TOKEN_DEBUG"
                   [mkDoc "monday" "tok123" None None 1]
                   [mkDoc "cliq" "c-tok" None None 3;
                    mkDoc "probe2" "TEST_TOKEN_DEBUG" None None 4]
                   []
                   (mkDoc "probe" "TEST_TOKEN_DEBUG" None None 2)) _ eq_refl).
  intros d' [<- | []]. discriminate.
Defined.

(** X30: the clean-up script ends with exit code 0 only after it reached
    the database and the deletion resolved, the collection then being the
    old one without the first debugging credential; in every other case
    (no address configured, connection or deletion rejected) it ends with
    exit code 1 and the collection untouched. The tokens held in memory
    and the environment are never changed. *)
Theorem cleanup_run_outcomes (x : Ext) (w : World) :
  ((exit_code (snd (Maintenance.run x w)) = Some 0 /\
    db (snd (Maintenance.run x w)) = true /\
    db_write_ok x = true /\
    tokens (snd (Maintenance.run x w))
      = Maintenance.deleteOne "TEST_TOKEN_DEBUG" (tokens w))
   \/
   (exit_code (snd (Maintenance.run x w)) = Some 1 /\
    tokens (snd (Maintenance.run x w)) = tokens w)) /\
  mondayAccessToken (snd (Maintenance.run x w)) = mondayAccessToken w /\
  oauthToken (snd (Maintenance.run x w)) = oauthToken w /\
  env (snd (Maintenance.run x w)) = env w /\
  (db w = false -> absent (env w !! "MONGODB_URI") ->
   exit_code (snd (Maintenance.run x w)) = Some 1).
Proof.
  unfold Maintenance.run, Db.connectDB, absent. unfold_monad.
  destruct w as [mat ot e dbf tk snt lis ex ix]. cbn [db env].
  destruct dbf; cbn [negb fst snd].
  - destruct (db_write_ok x); cbn; repeat split; auto; discriminate.
  - destruct (opt_truthy (e !! "MONGODB_URI")); cbn [negb fst snd].
    + destruct (db_connect_ok x); cbn [negb fst snd];
        [destruct (db_write_ok x)|]; cbn; repeat split; auto; discriminate.
    + cbn. repeat split; auto.
Qed.

(** X30 at a process that has no database address. *)
Lemma cleanup_run_outcomes_witness :
  db (ServerJs.boot Samples.token_env Samples.with_debug_token) = false /\
  absent (env (ServerJs.boot Samples.token_env Samples.with_debug_token)
            !! "MONGODB_URI") /\
  exit_code (snd (Maintenance.run Samples.all_ok
                    (ServerJs.boot Samples.token_env
                       Samples.with_debug_token))) = Some 1.
Proof.
  assert (Ha : absent (env (ServerJs.boot Samples.token_env
                              Samples.with_debug_token) !! "MONGODB_URI"))
    by reflexivity.
  split; [reflexivity | split; [exact Ha|]].
  exact (proj2 (proj2 (proj2 (proj2
           (cleanup_run_outcomes Samples.all_ok
              (ServerJs.boot Samples.token_env Samples.with_debug_token)))))
         eq_refl Ha).
Defined.
